(** * PaperFlux: the paper fetcher (src/services/paper_fetcher.py)

    A shallow embedding of [PaperFetcher] and of the settings it reads,
    with the properties of the ingestion design that concern the listing
    fetch, the per-paper download, the batch download and the record
    normaliser.

    Conventions of the model.
    - Decoded JSON is the type [pyval]; a JSON object is an association
      list read by its first binding.  Numbers are integers (fractional
      numbers do not occur in what is proved here).
    - A Python [str] is a Rocq [string], one [ascii] per character.
    - A raised exception is the [Raise] branch of [outcome]; only the
      class of the exception is kept.
    - The network, the disk and the clock are a [World] the code reads;
      within one run a URL has one answer and the date does not change.
      The files the code writes, the requests it issues and the lines it
      prints are a [state] threaded through the monad [M].
    - Paths follow [posixpath].
    - [asyncio.gather] is run in task order.  Each task's result depends
      on the world and on its entry only, so the gathered list does not
      depend on the interleaving; only the order of the trace does. *)

From stdpp Require Import base option list strings gmap fin_maps pretty.
From Stdlib Require Import ZArith Ascii String.

#[local] Set Warnings "-register-all,-clear-no-such-hyp".
Open Scope string_scope.

(** ** Python values and exceptions *)

Inductive pyval : Type :=
| PNone
| PBool (b : bool)
| PInt (z : Z)
| PStr (s : string)
| PList (l : list pyval)
| PDict (d : list (string * pyval)).

Inductive exn : Type :=
| KeyError (key : string)
| TypeError
| AttributeError
| IndexError
| ValueError
| UnboundLocalError (var : string)
| ClientError
| OSError
| DecodeError
| ApiRequestFailed (status : Z)
| MalformedEntry.

Inductive outcome (A : Type) : Type :=
| Ret (a : A)
| Raise (e : exn).
Arguments Ret {A} a.
Arguments Raise {A} e.

(** Sequencing: the first exception raised ends the computation. *)
#[global] Instance outcome_bind : MBind outcome := λ A B k o,
  match o with
  | Ret a => k a
  | Raise e => Raise e
  end.

(** ** Settings (src/config/settings.py) *)

Definition HF_API_URL : string := "https://huggingface.co/api/daily_papers".
Definition PDF_BASE_URL : string := "https://arxiv.org/pdf/{id}.pdf".
Definition TEMP_DIR : string := "temp_papers".

(** ** Built-ins the fetcher calls *)

(** [d[key]] on a dict. *)
Fixpoint dict_get (d : list (string * pyval)) (key : string) : option pyval :=
  match d with
  | [] => None
  | (k, v) :: rest => if String.eqb k key then Some v else dict_get rest key
  end.

(** [v[key]] with a string key: a lookup on a dict, [TypeError] on every
    other value (a str or a list wants an integer index, the rest are not
    subscriptable). *)
Definition subscript (v : pyval) (key : string) : outcome pyval :=
  match v with
  | PDict d =>
      match dict_get d key with
      | Some x => Ret x
      | None => Raise (KeyError key)
      end
  | _ => Raise TypeError
  end.

Section Fetcher.

(** [repr] of a list or of a dict is left open: it is only ever spliced
    into a URL when a paper id is not a string. *)
Variable container_repr : pyval → string.

(** [str(v)], as [str.format] applies it to a field with no format spec. *)
Definition py_str (v : pyval) : string :=
  match v with
  | PNone => "None"
  | PBool true => "True"
  | PBool false => "False"
  | PInt z => pretty z
  | PStr s => s
  | PList _ | PDict _ => container_repr v
  end.

(** [template.format(id=value)] for templates made of literal text, the
    doubled braces and replacement fields that are a bare keyword or
    empty (no conversion, no format spec).  [field] is [Some name] while
    the scan is inside a replacement field. *)
Fixpoint format_scan (template : string) (field : option string)
    (value : string) : outcome string :=
  match field, template with
  | None, EmptyString => Ret ""
  | None, String "{" (String "{" rest) =>
      s ← format_scan rest None value; Ret (String "{" s)
  | None, String "{" rest => format_scan rest (Some "") value
  | None, String "}" (String "}" rest) =>
      s ← format_scan rest None value; Ret (String "}" s)
  | None, String "}" _ => Raise ValueError
  | None, String c rest =>
      s ← format_scan rest None value; Ret (String c s)
  | Some _, EmptyString => Raise ValueError
  | Some name, String "}" rest =>
      if String.eqb name "id"
      then s ← format_scan rest None value; Ret (value +:+ s)
      else if String.eqb name "" then Raise IndexError
      else Raise (KeyError name)
  | Some _, String "{" _ => Raise ValueError
  | Some name, String c rest =>
      format_scan rest (Some (name +:+ String c "")) value
  end.

Definition str_format (template : string) (id : pyval) : outcome string :=
  format_scan template None (py_str id).

(** [s.replace(old, new)] for one-character [old] and [new]. *)
Fixpoint replace_char (old new : ascii) (s : string) : string :=
  match s with
  | EmptyString => EmptyString
  | String c rest =>
      String (if Ascii.eqb c old then new else c) (replace_char old new rest)
  end.

(** [v.replace("/", "_")]: only a str has the method. *)
Definition py_replace_slash (v : pyval) : outcome string :=
  match v with
  | PStr s => Ret (replace_char "/" "_" s)
  | _ => Raise AttributeError
  end.

(** [datetime.date]: 1 <= year <= 9999, so [str(date)] is the fixed-width
    ISO form YYYY-MM-DD. *)
Record date : Type := { year : nat; month : nat; day : nat }.

Definition digit (n : nat) : ascii := ascii_of_nat (48 + n mod 10).

Definition date_str (d : date) : string :=
  String (digit (year d / 1000)) (String (digit (year d / 100))
  (String (digit (year d / 10)) (String (digit (year d))
  (String "-" (String (digit (month d / 10)) (String (digit (month d))
  (String "-" (String (digit (day d / 10)) (String (digit (day d)) ""))))))))).

Definition ends_with_slash (s : string) : bool :=
  match String.length s with
  | 0 => false
  | S n => match String.get n s with
           | Some c => Ascii.eqb c "/"
           | None => false
           end
  end.

Definition starts_with_slash (s : string) : bool :=
  match s with
  | EmptyString => false
  | String c _ => Ascii.eqb c "/"
  end.

(** [os.path.join(a, b)] on a POSIX system: an absolute [b] replaces [a],
    otherwise the two are joined by one separator. *)
Definition path_join (a b : string) : string :=
  if starts_with_slash b then b
  else if String.eqb a "" then b
  else if ends_with_slash a then a +:+ b
  else a +:+ "/" +:+ b.

(** A hashable dict key.  [True == 1] and [False == 0] in Python, so a
    bool is the same key as that integer; a list or a dict is unhashable. *)
Inductive hkey : Type :=
| KNone
| KInt (z : Z)
| KStr (s : string).

Definition py_hash_key (v : pyval) : outcome hkey :=
  match v with
  | PNone => Ret KNone
  | PBool b => Ret (KInt (if b then 1 else 0))
  | PInt z => Ret (KInt z)
  | PStr s => Ret (KStr s)
  | PList _ | PDict _ => Raise TypeError
  end.

#[global] Instance hkey_eq_dec : EqDecision hkey.
Proof. solve_decision. Defined.

Definition hkey_encode (k : hkey) : unit + Z + string :=
  match k with
  | KNone => inl (inl tt)
  | KInt z => inl (inr z)
  | KStr s => inr s
  end.

Definition hkey_decode (x : unit + Z + string) : hkey :=
  match x with
  | inl (inl _) => KNone
  | inl (inr z) => KInt z
  | inr s => KStr s
  end.

#[global] Instance hkey_countable : Countable hkey.
Proof.
  apply (inj_countable' hkey_encode hkey_decode).
  intros []; reflexivity.
Defined.

(** [len(v)]. *)
Definition py_len (v : pyval) : outcome nat :=
  match v with
  | PStr s => Ret (String.length s)
  | PList l => Ret (List.length l)
  | PDict d => Ret (List.length (remove_dups (d.*1)))
  | PNone | PBool _ | PInt _ => Raise TypeError
  end.

(** ** The world the fetcher runs in *)

Definition bytes : Type := list Byte.byte.

(** What [session.get] hands back: the status line, and what awaiting
    [response.read()] and [response.json()] gives. *)
Record response : Type := {
  resp_status : Z;
  resp_read : outcome bytes;
  resp_json : outcome pyval
}.

Record World : Type := {
  today : date;                         (* datetime.now().date() *)
  http_get : string → outcome response; (* Raise: no response came back *)
  disk_write : string → bytes → bool    (* whether open(.., "wb") and write succeed *)
}.

(** One printed line, with the values its f-string interpolates. *)
Inductive event : Type :=
| FoundPapers (n : nat)
| Downloaded (paper_id : pyval)
| DownloadFailed (paper_id : pyval) (status : Z)
| DownloadError (paper_id : pyval) (e : exn)
| Summary (successful total : nat).

Record state : Type := {
  files : gmap string bytes;
  requests : list string;
  stdout : list event
}.

Definition M (A : Type) : Type := state → outcome A * state.

Definition ret {A} (a : A) : M A := fun st => (Ret a, st).
Definition raise {A} (e : exn) : M A := fun st => (Raise e, st).
Definition lift {A} (o : outcome A) : M A := fun st => (o, st).

#[global] Instance M_bind : MBind M := λ A B k m st,
  match m st with
  | (Ret a, st') => k a st'
  | (Raise e, st') => (Raise e, st')
  end.

(** [try: body except Exception as e: handler e]. *)
Definition try_except {A} (body : M A) (handler : exn → M A) : M A :=
  fun st =>
    match body st with
    | (Ret a, st') => (Ret a, st')
    | (Raise e, st') => handler e st'
    end.

Definition print (ev : event) : M unit :=
  fun st => (Ret tt, {| files := files st; requests := requests st;
                        stdout := stdout st ++ [ev] |}).

(** [async with session.get(url) as response]. *)
Definition session_get (w : World) (url : string) : M response :=
  fun st => (http_get w url,
             {| files := files st; requests := requests st ++ [url];
                stdout := stdout st |}).

(** [with open(filepath, "wb") as f: f.write(content)]. *)
Definition write_file (w : World) (filepath : string) (content : bytes) : M unit :=
  fun st =>
    if disk_write w filepath content
    then (Ret tt, {| files := <[filepath := content]> (files st);
                     requests := requests st; stdout := stdout st |})
    else (Raise OSError, st).

(** [await asyncio.gather] over the tasks: every task runs; the results come in
    task order; an exception of a task is raised to the caller.  For a
    batch that raises, the state holds the effects of every task, those
    still pending at the time of the exception included: it bounds what
    the run can have done. *)
Fixpoint gather {A} (tasks : list (M A)) : M (list A) :=
  match tasks with
  | [] => ret []
  | t :: ts =>
      fun st =>
        let (r, st1) := t st in
        let (rs, st2) := gather ts st1 in
        (match r, rs with
         | Ret a, Ret l => Ret (a :: l)
         | Raise e, _ => Raise e
         | Ret _, Raise e => Raise e
         end, st2)
  end.

(** ** PaperFetcher *)

Definition fetch_papers (w : World) : M pyval :=
  response ← session_get w HF_API_URL;
  if (resp_status response =? 200)%Z then
    papers ← lift (resp_json response);
    n ← lift (py_len papers);
    print (FoundPapers n);;
    ret papers
  else raise (ApiRequestFailed (resp_status response)).

(** [paper_entry["paper"]["id"]]. *)
Definition entry_id (paper_entry : pyval) : outcome pyval :=
  paper ← subscript paper_entry "paper"; subscript paper "id".

(** The scratch path of lines 32-34. *)
Definition scratch_path (w : World) (clean_id : string) : string :=
  path_join TEMP_DIR (date_str (today w) +:+ "_" +:+ clean_id +:+ ".pdf").

(** Lines 31-45, the part of the [try] block that runs once [paper_id]
    is bound. *)
Definition download_body (w : World) (paper_id : pyval) : M (option string) :=
  pdf_url ← lift (str_format PDF_BASE_URL paper_id);
  clean_id ← lift (py_replace_slash paper_id);
  let filepath := scratch_path w clean_id in
  response ← session_get w pdf_url;
  if (resp_status response =? 200)%Z then
    content ← lift (resp_read response);
    write_file w filepath content;;
    print (Downloaded paper_id);;
    ret (Some filepath)
  else
    print (DownloadFailed paper_id (resp_status response));;
    ret None.

(** The handler prints [paper_id].  When line 30 itself raised, the local
    was never bound and reading it raises [UnboundLocalError] out of the
    handler. *)
Definition download_paper (w : World) (paper_entry : pyval) : M (option string) :=
  match entry_id paper_entry with
  | Raise _ => raise (UnboundLocalError "paper_id")
  | Ret paper_id =>
      try_except (download_body w paper_id)
        (fun e => print (DownloadError paper_id e);; ret None)
  end.

(** The loop of lines 59-61 over [zip(papers, results)]. *)
Fixpoint collect_paths (pairs : list (pyval * option string))
    (paper_paths : gmap hkey string) : outcome (gmap hkey string) :=
  match pairs with
  | [] => Ret paper_paths
  | (paper, file_path) :: rest =>
      match file_path with
      | Some path =>
          if String.eqb path "" then collect_paths rest paper_paths
          else
            paper_id ← entry_id paper;
            key ← py_hash_key paper_id;
            collect_paths rest (<[key := path]> paper_paths)
      | None => collect_paths rest paper_paths
      end
  end.

(** [status[1]] on a gathered result: [None] is not subscriptable, a str
    gives its second character, and a one-character str is true. *)
Definition status_1 (status : option string) : outcome bool :=
  match status with
  | None => Raise TypeError
  | Some s => if decide (String.length s < 2) then Raise IndexError else Ret true
  end.

(** [sum(1 for status in results if status[1])]. *)
Fixpoint count_successful (results : list (option string)) : outcome nat :=
  match results with
  | [] => Ret 0
  | status :: rest =>
      b ← status_1 status;
      n ← count_successful rest;
      Ret ((if b : bool then 1 else 0) + n)
  end.

Definition download_papers (w : World) (papers : list pyval)
    : M (gmap hkey string) :=
  results ← gather (map (download_paper w) papers);
  paper_paths ← lift (collect_paths (zip papers results) ∅);
  successful ← lift (count_successful results);
  print (Summary successful (List.length papers));;
  ret paper_paths.

(** Modelled from the spec: the [Paper] model class
    (paperflux.src.models.models) is not among the sources.  The spec's
    PaperRecord has the fields below, and [explanation] is absent until
    enrichment fills it. *)
Record Paper : Type := {
  paper_id : pyval;
  title : pyval;
  authors : pyval;
  summary : pyval;
  published_at : pyval;
  pdf_url : string;
  explanation : option string
}.

Definition is_str (v : pyval) : bool :=
  match v with PStr _ => true | _ => false end.

(** An array of objects that each have a name. *)
Definition is_author_array (v : pyval) : bool :=
  match v with
  | PList l =>
      forallb (λ a, match a with
                    | PDict d => bool_decide (is_Some (dict_get d "name"))
                    | _ => false
                    end) l
  | _ => false
  end.

(** Which strings are ISO-8601 timestamps is left to the parser of the
    model class, [iso8601]. *)
Definition is_timestamp (iso8601 : string → bool) (v : pyval) : bool :=
  match v with PStr s => iso8601 s | _ => false end.

(** Modelled from the spec: the shape the listing endpoint gives the
    fields (id, title and summary strings, authors an array of objects
    with a name, publishedAt an ISO-8601 string). *)
Definition well_shaped (iso8601 : string → bool)
    (id title authors summary published_at : pyval) : bool :=
  is_str id && is_str title && is_author_array authors &&
  is_str summary && is_timestamp iso8601 published_at.

(** Modelled from the spec: the call [Paper(...)] of lines 69-76.  The
    normaliser fails with the spec's [MalformedEntry] on a field of the
    wrong shape; no line of [parse_paper_data] itself looks at the
    values, so that check is the constructor's. *)
Definition make_paper (iso8601 : string → bool)
    (id title authors summary published_at : pyval) (url : string)
    : outcome Paper :=
  if well_shaped iso8601 id title authors summary published_at
  then Ret {| paper_id := id; title := title; authors := authors;
              summary := summary; published_at := published_at;
              pdf_url := url; explanation := None |}
  else Raise MalformedEntry.

Definition parse_paper_data (iso8601 : string → bool) (paper_entry : pyval)
    : outcome Paper :=
  paper_data ← subscript paper_entry "paper";
  id ← subscript paper_data "id";
  title ← subscript paper_data "title";
  authors ← subscript paper_data "authors";
  summary ← subscript paper_data "summary";
  published_at ← subscript paper_data "publishedAt";
  id' ← subscript paper_data "id";
  url ← str_format PDF_BASE_URL id';
  make_paper iso8601 id title authors summary published_at url.

(** ** Vocabulary of the statements *)

(** The document URL of the paper whose id is the string [x]. *)
Definition document_url (x : string) : string :=
  "https://arxiv.org/pdf/" +:+ x +:+ ".pdf".

(** Whether the character [c] occurs in [s]. *)
Fixpoint occurs (c : ascii) (s : string) : bool :=
  match s with
  | EmptyString => false
  | String c' rest => Ascii.eqb c' c || occurs c rest
  end.

(** The document GET of paper [x] answers 200, its body is read and the
    scratch file is written. *)
Inductive download_succeeds (w : World) (x : string) : Prop :=
| Download_ok (r : response) (content : bytes) :
    http_get w (document_url x) = Ret r →
    resp_status r = 200%Z →
    resp_read r = Ret content →
    disk_write w (scratch_path w (replace_char "/" "_" x)) content = true →
    download_succeeds w x.

(** The ways the download of paper [x] goes wrong: no response, a status
    other than 200, a body that cannot be read, a file that cannot be
    written. *)
Inductive download_fails (w : World) (x : string) : Prop :=
| No_response (e : exn) :
    http_get w (document_url x) = Raise e → download_fails w x
| Bad_status (r : response) :
    http_get w (document_url x) = Ret r →
    resp_status r ≠ 200%Z → download_fails w x
| Read_error (r : response) (e : exn) :
    http_get w (document_url x) = Ret r →
    resp_status r = 200%Z →
    resp_read r = Raise e → download_fails w x
| Write_error (r : response) (content : bytes) :
    http_get w (document_url x) = Ret r →
    resp_status r = 200%Z →
    resp_read r = Ret content →
    disk_write w (scratch_path w (replace_char "/" "_" x)) content = false →
    download_fails w x.

(** The result of [download_paper] as a function of the world. *)
Definition download_result (w : World) (x : string) : option string :=
  match http_get w (document_url x) with
  | Ret r =>
      if (resp_status r =? 200)%Z then
        match resp_read r with
        | Ret content =>
            let filepath := scratch_path w (replace_char "/" "_" x) in
            if disk_write w filepath content then Some filepath else None
        | Raise _ => None
        end
      else None
  | Raise _ => None
  end.

(** [paper_entry["paper"][k]]. *)
Definition paper_field (paper_entry : pyval) (k : string) : outcome pyval :=
  paper ← subscript paper_entry "paper"; subscript paper k.

(** The keys the normaliser reads in the nested paper object. *)
Definition required_fields : list string :=
  ["id"; "title"; "authors"; "summary"; "publishedAt"].

(** The key under which the loop of [download_papers] files an entry. *)
Definition entry_key (e : pyval) : outcome hkey :=
  id ← entry_id e; py_hash_key id.

(** The dict after the assignments [d[k] = v] for the pairs of [kvs],
    taken in order. *)
Definition insert_all (kvs : list (hkey * string))
    (m0 : gmap hkey string) : gmap hkey string :=
  foldl (λ m kv, <[kv.1 := kv.2]> m) m0 kvs.

(** The path a successful download of the key's paper returns. *)
Definition key_path (w : World) (k : hkey) : string :=
  match k with
  | KStr x => scratch_path w (replace_char "/" "_" x)
  | _ => ""
  end.

(** The claim that a batch of N entries yields N outcomes. *)
Definition returns_one_outcome_per_entry (w : World) (papers : list pyval)
    (st : state) : Prop :=
  ∃ m, fst (download_papers w papers st) = Ret m ∧
       size m = List.length papers.

(** ** A sample run *)

(** A listing entry as the API sends it, for the paper [id]. *)
Definition entry_of (id : string) : pyval :=
  PDict [("paper",
          PDict [("id", PStr id);
                 ("title", PStr "A paper");
                 ("authors", PList [PDict [("name", PStr "A. Author")]]);
                 ("summary", PStr "An abstract.");
                 ("publishedAt", PStr "2025-03-06T00:00:00.000Z")]);
         ("numComments", PInt 2)].

(** An entry whose paper object has no id. *)
Definition entry_without_id : pyval :=
  PDict [("paper",
          PDict [("title", PStr "A paper");
                 ("authors", PList []);
                 ("summary", PStr "An abstract.");
                 ("publishedAt", PStr "2025-03-06T00:00:00.000Z")])].

(** The bytes of [%PDF]. *)
Definition pdf_bytes : bytes := [Byte.x25; Byte.x50; Byte.x44; Byte.x46].

Definition response_of (status : Z) : response :=
  {| resp_status := status; resp_read := Ret pdf_bytes;
     resp_json := Raise DecodeError |}.

(** On 7 March 2025: the listing has two papers, the document of
    2503.00002 is not found, the host of 2503.00003 does not answer, and
    the scratch file of 2503.00004 cannot be written. *)
Definition sample_world : World :=
  {| today := {| year := 2025; month := 3; day := 7 |};
     http_get := λ url,
       if String.eqb url HF_API_URL then
         Ret {| resp_status := 200; resp_read := Ret [];
                resp_json := Ret (PList [entry_of "2503.00001";
                                         entry_of "2503.00002"]) |}
       else if String.eqb url "https://arxiv.org/pdf/2503.00002.pdf" then
         Ret (response_of 404)
       else if String.eqb url "https://arxiv.org/pdf/2503.00003.pdf" then
         Raise ClientError
       else Ret (response_of 200);
     disk_write := λ path _,
       negb (String.eqb path "temp_papers/2025-03-07_2503.00004.pdf") |}.

(** The listing endpoint is down. *)
Definition outage_world : World :=
  {| today := {| year := 2025; month := 3; day := 7 |};
     http_get := λ _, Ret (response_of 503);
     disk_write := λ _ _, true |}.


(** A stand-in for the timestamp parser on the sample run: a date part
    with its two hyphens. *)
Definition sample_iso8601 (s : string) : bool :=
  match String.get 4 s, String.get 7 s with
  | Some c1, Some c2 => Ascii.eqb c1 "-" && Ascii.eqb c2 "-"
  | _, _ => false
  end.

Definition initial_state : state :=
  {| files := ∅; requests := []; stdout := [] |}.

Definition no_repr : pyval → string := λ _, "".

(** ** The rest of the fetcher's behaviour *)

(** The document URLs of the entries of a batch whose id is a string, in
    batch order. *)
Definition request_urls (papers : list pyval) : list string :=
  flat_map (λ e, match entry_id e with
                 | Ret (PStr x) => [document_url x]
                 | _ => []
                 end) papers.

(** A path directly inside the scratch directory. *)
Definition in_scratch (path : string) : Prop :=
  ∃ filename, path = TEMP_DIR +:+ "/" +:+ filename ∧
              occurs "/" filename = false.

(** ** The paper page (app.py) *)

(** [bool(v)]. *)
Definition py_truthy (v : pyval) : bool :=
  match v with
  | PNone => false
  | PBool b => b
  | PInt z => negb (z =? 0)%Z
  | PStr s => negb (String.eqb s "")
  | PList l => match l with [] => false | _ => true end
  | PDict d => match d with [] => false | _ => true end
  end.

(** [v.get(key)]: a dict answers [None] for a missing key; no other
    value has the method. *)
Definition py_get (v : pyval) (key : string) : outcome pyval :=
  match v with
  | PDict d => Ret (default PNone (dict_get d key))
  | _ => Raise AttributeError
  end.

Definition dquote : string := String "034"%char "".

(** The f-string of line 57. *)
Definition pdf_anchor (pdf_url : string) : string :=
  "<a href=" +:+ dquote +:+ pdf_url +:+ dquote +:+ " target=" +:+ dquote
  +:+ "_blank" +:+ dquote +:+ ">Download PDF</a>".

Definition PDF_UNAVAILABLE : string := "PDF download unavailable".

(** One [logger.error] call of [get_pdf_download_link]. *)
Inductive log_record : Type :=
| PdfUrlNotFound (paper_id : pyval)
| LinkError (e : exn).

(** The [try] block of [get_pdf_download_link], lines 46-58.  The value
    is the returned text with the records logged on the way. *)
Definition pdf_link_body (get_paper_by_id : pyval → outcome pyval)
    (paper_id : pyval) : outcome (string * list log_record) :=
  paper ← get_paper_by_id paper_id;
  no_url ← (if negb (py_truthy paper) then Ret true
            else url ← py_get paper "pdf_url"; Ret (negb (py_truthy url)));
  if no_url : bool then Ret (PDF_UNAVAILABLE, [PdfUrlNotFound paper_id])
  else
    pdf_url ← subscript paper "pdf_url";
    Ret (pdf_anchor (py_str pdf_url), []).

(** [get_pdf_download_link], with [db_service.get_paper_by_id] (not among
    the sources) as a parameter. *)
Definition get_pdf_download_link (get_paper_by_id : pyval → outcome pyval)
    (paper_id paper_title : pyval) : outcome (string * list log_record) :=
  match pdf_link_body get_paper_by_id paper_id with
  | Ret r => Ret r
  | Raise e => Ret (PDF_UNAVAILABLE, [LinkError e])
  end.

(** [author.get("name", "")]. *)
Definition author_name (author : pyval) : outcome pyval :=
  match author with
  | PDict d => Ret (default (PStr "") (dict_get d "name"))
  | _ => Raise AttributeError
  end.

(** The generator [author.get("name", "") for author in authors], run to
    its end as [str.join] does before it looks at the items. *)
Fixpoint author_names (authors : list pyval) : outcome (list pyval) :=
  match authors with
  | [] => Ret []
  | author :: rest =>
      name ← author_name author;
      names ← author_names rest;
      Ret (name :: names)
  end.

(** [str.join] wants every item to be a str. *)
Fixpoint str_items (items : list pyval) : outcome (list string) :=
  match items with
  | [] => Ret []
  | PStr s :: rest => strs ← str_items rest; Ret (s :: strs)
  | _ :: _ => Raise TypeError
  end.

Fixpoint py_join (sep : string) (items : list string) : string :=
  match items with
  | [] => ""
  | [s] => s
  | s :: rest => s +:+ sep +:+ py_join sep rest
  end.

(** [", ".join(author.get("name", "") for author in authors)]. *)
Definition join_names (authors : list pyval) : outcome string :=
  names ← author_names authors;
  strs ← str_items names;
  Ret (py_join ", " strs).

(** Lines 171-176 of app.py, for [paper["authors"]] a list, as the API
    and the store have it. *)
Definition authors_text (authors_list : list pyval) : outcome string :=
  if decide (3 < List.length authors_list)%nat then
    s ← join_names (take 3 authors_list); Ret (s +:+ " et al.")
  else join_names authors_list.

(** An author the page can show: a dict whose name, when it has one, is
    a str. *)
Definition showable_author (author : pyval) : Prop :=
  ∃ d, author = PDict d ∧
       (dict_get d "name" = None ∨ ∃ s, dict_get d "name" = Some (PStr s)).

(** A store that holds one paper, knows nothing of the others, and
    is unreachable for the id [None]. *)
Definition sample_store (paper_id : pyval) : outcome pyval :=
  match paper_id with
  | PStr "2503.00001" =>
      Ret (PDict [("paper_id", PStr "2503.00001");
                  ("title", PStr "A paper");
                  ("pdf_url", PStr "https://arxiv.org/pdf/2503.00001.pdf")])
  | PNone => Raise OSError
  | _ => Ret PNone
  end.

(** * Properties *)

#[local] Arguments digit : simpl never.
#[local] Arguments date_str : simpl never.
#[local] Arguments scratch_path : simpl never.
#[local] Arguments document_url : simpl never.
#[local] Arguments str_format : simpl never.

(** ** Built-ins *)

Lemma str_format_pdf (v : pyval) :
  str_format PDF_BASE_URL v = Ret (document_url (py_str v)).
Proof. reflexivity. Qed.

Lemma download_result_succeeds w x p :
  download_result w x = Some p ↔
  p = scratch_path w (replace_char "/" "_" x) ∧ download_succeeds w x.
Proof.
  unfold download_result. split.
  - destruct (http_get w (document_url x)) as [r|] eqn:Hget; [|done].
    destruct (Z.eqb_spec (resp_status r) 200) as [Hst|]; [|done].
    destruct (resp_read r) as [content|] eqn:Hread; [|done].
    destruct (disk_write w _ content) eqn:Hw; [|done].
    intros [= <-]. split; [done|]. by econstructor.
  - intros [-> [r content Hget Hst Hread Hw]].
    rewrite Hget, Hst, Hread, Hw. done.
Qed.

Lemma download_result_fails w x :
  download_result w x = None ↔ download_fails w x.
Proof.
  unfold download_result. split.
  - destruct (http_get w (document_url x)) as [r|e] eqn:Hget;
      [|intros _; by eapply No_response].
    destruct (Z.eqb_spec (resp_status r) 200) as [Hst|Hst];
      [|intros _; by eapply Bad_status].
    destruct (resp_read r) as [content|e] eqn:Hread;
      [|intros _; by eapply Read_error].
    destruct (disk_write w _ content) eqn:Hw; [done|].
    intros _. by eapply Write_error.
  - intros [e Hget|r Hget Hst|r e Hget Hst Hread|r content Hget Hst Hread Hw];
      rewrite Hget; try done.
    + by destruct (Z.eqb_spec (resp_status r) 200).
    + by rewrite Hst, Hread.
    + by rewrite Hst, Hread, Hw.
Qed.

(** ** download_paper *)

Lemma download_paper_unbound w e st err :
  entry_id e = Raise err →
  download_paper w e st = (Raise (UnboundLocalError "paper_id"), st).
Proof. intros H. unfold download_paper. by rewrite H. Qed.

Lemma download_paper_str w e st x :
  entry_id e = Ret (PStr x) →
  fst (download_paper w e st) = Ret (download_result w x).
Proof.
  intros H. unfold download_paper, download_result. rewrite H.
  unfold try_except, download_body, mbind, M_bind, lift.
  rewrite str_format_pdf. cbn [py_replace_slash py_str session_get].
  destruct (http_get w (document_url x)) as [r|] eqn:Hget; [|done].
  destruct (resp_status r =? 200)%Z; [|done].
  destruct (resp_read r) as [content|]; [|done].
  unfold write_file.
  by destruct (disk_write w _ content).
Qed.

Lemma download_paper_not_str w e st v :
  entry_id e = Ret v → (∀ x, v ≠ PStr x) →
  fst (download_paper w e st) = Ret None.
Proof.
  intros H Hv. unfold download_paper. rewrite H.
  unfold try_except, download_body, mbind, M_bind, lift.
  rewrite str_format_pdf.
  destruct v; try done. by destruct (Hv s).
Qed.

Lemma download_paper_fst w e st st' :
  fst (download_paper w e st) = fst (download_paper w e st').
Proof.
  destruct (entry_id e) as [v|err] eqn:H.
  - destruct v;
      first [ by rewrite !(download_paper_str _ _ _ _ H)
            | by rewrite !(download_paper_not_str _ _ _ _ H) ].
  - by rewrite !(download_paper_unbound _ _ _ _ H).
Qed.

Lemma download_paper_some w e st p :
  fst (download_paper w e st) = Ret (Some p) ↔
  ∃ x, entry_id e = Ret (PStr x) ∧
       p = scratch_path w (replace_char "/" "_" x) ∧
       download_succeeds w x.
Proof.
  split.
  - destruct (entry_id e) as [v|err] eqn:H.
    + destruct v;
        try (rewrite (download_paper_not_str _ _ _ _ H); [done|done]).
      rewrite (download_paper_str _ _ _ _ H). intros Hp.
      injection Hp as Hp. apply download_result_succeeds in Hp.
      exists s. tauto.
    + by rewrite (download_paper_unbound _ _ _ _ H).
  - intros (x & H & -> & Hok).
    rewrite (download_paper_str _ _ _ _ H). f_equal.
    by apply download_result_succeeds.
Qed.

Lemma download_paper_bound w e st v :
  entry_id e = Ret v → ∃ o, fst (download_paper w e st) = Ret o.
Proof.
  intros H. destruct v;
    first [ by rewrite (download_paper_str _ _ _ _ H); eauto
          | rewrite (download_paper_not_str _ _ _ _ H); eauto ].
Qed.

(** C3.  [download_paper] returns the scratch path exactly when the
    entry has a string id whose document GET answers 200 with a readable
    body that is written to disk; on a status other than 200 and on every
    I/O error (no response, unreadable body, failed write) it returns
    [None]; and once the entry's id is bound it never raises. *)
Theorem download_paper_outcome (w : World) (e : pyval) (st : state) :
  (∀ p, fst (download_paper w e st) = Ret (Some p) ↔
        ∃ x, entry_id e = Ret (PStr x) ∧
             p = scratch_path w (replace_char "/" "_" x) ∧
             download_succeeds w x) ∧
  (∀ x, entry_id e = Ret (PStr x) → download_fails w x →
        fst (download_paper w e st) = Ret None) ∧
  (∀ v, entry_id e = Ret v → ∃ o, fst (download_paper w e st) = Ret o).
Proof.
  split_and!.
  - intros p. apply download_paper_some.
  - intros x H Hfail. rewrite (download_paper_str _ _ _ _ H). f_equal.
    by apply download_result_fails.
  - intros v. apply download_paper_bound.
Qed.

(** ** The scratch path *)

Lemma occurs_app c a b : occurs c (a +:+ b) = occurs c a || occurs c b.
Proof.
  induction a as [|c' a IH]; [done|]. simpl. rewrite IH. by rewrite orb_assoc.
Qed.

Lemma digit_not_slash n : Ascii.eqb (digit n) "/" = false.
Proof.
  unfold digit. pose proof (Nat.mod_upper_bound n 10 ltac:(lia)) as Hlt.
  destruct (n mod 10) as [|[|[|[|[|[|[|[|[|[|k]]]]]]]]]]; try reflexivity. lia.
Qed.

Lemma date_str_no_slash d : occurs "/" (date_str d) = false.
Proof. unfold date_str, occurs. by rewrite !digit_not_slash. Qed.

Lemma replace_char_no_slash s : occurs "/" (replace_char "/" "_" s) = false.
Proof.
  induction s as [|c s IH]; [done|]. cbn. rewrite IH.
  destruct (Ascii.eqb_spec c "/") as [->|Hc]; [done|].
  by apply Ascii.eqb_neq in Hc as ->.
Qed.

Lemma replace_char_length old new s :
  String.length (replace_char old new s) = String.length s.
Proof. induction s; cbn; congruence. Qed.

Lemma replace_char_get old new s i :
  String.get i (replace_char old new s) =
  (λ c, if Ascii.eqb c old then new else c) <$> String.get i s.
Proof.
  revert i. induction s as [|c s IH]; intros i; [done|].
  destruct i; cbn; [done|apply IH].
Qed.

Lemma starts_with_slash_cons c s t :
  starts_with_slash (String c s +:+ t) = Ascii.eqb c "/".
Proof. reflexivity. Qed.

Lemma scratch_path_eq w clean_id :
  scratch_path w clean_id =
  TEMP_DIR +:+ "/" +:+ (date_str (today w) +:+ "_" +:+ clean_id +:+ ".pdf").
Proof.
  unfold scratch_path, path_join. unfold date_str at 1.
  by rewrite starts_with_slash_cons, digit_not_slash.
Qed.

Lemma scratch_path_length w clean_id :
  (2 ≤ String.length (scratch_path w clean_id))%nat.
Proof. rewrite scratch_path_eq. unfold TEMP_DIR. simpl String.length. lia. Qed.

Lemma scratch_path_nonempty w clean_id : scratch_path w clean_id ≠ "".
Proof. by rewrite scratch_path_eq. Qed.

Lemma download_paper_files w e st x p :
  entry_id e = Ret (PStr x) →
  fst (download_paper w e st) = Ret (Some p) →
  ∃ r content,
    http_get w (document_url x) = Ret r ∧ resp_read r = Ret content ∧
    files (snd (download_paper w e st)) = <[p := content]> (files st).
Proof.
  intros H. rewrite (download_paper_str _ _ _ _ H). intros Hp.
  injection Hp as Hp. revert Hp.
  unfold download_paper, download_result. rewrite H.
  unfold try_except, download_body, mbind, M_bind, lift.
  rewrite str_format_pdf. cbn [py_replace_slash py_str session_get].
  destruct (http_get w (document_url x)) as [r|] eqn:Hget; [|done].
  destruct (resp_status r =? 200)%Z; [|done].
  destruct (resp_read r) as [content|] eqn:Hread; [|done].
  unfold write_file.
  destruct (disk_write w _ content); [|done].
  intros [= <-]. exists r, content. split_and!; [done|done|].
  unfold print, ret. reflexivity.
Qed.

(** C8.  A successful download returns, and writes the body to, the
    path made of the scratch directory, one separator, and the file name
    [{date}_{sanitized id}.pdf]; the sanitized id is the paper id with
    each [/] replaced by [_], so no [/] occurs in the file name. *)
Theorem download_paper_scratch_file (w : World) (e : pyval) (st : state)
    (p : string) :
  fst (download_paper w e st) = Ret (Some p) →
  ∃ x clean_id filename content,
    entry_id e = Ret (PStr x) ∧
    clean_id = replace_char "/" "_" x ∧
    String.length clean_id = String.length x ∧
    (∀ i c, String.get i x = Some c →
            String.get i clean_id = Some (if Ascii.eqb c "/" then "_"%char else c)) ∧
    filename = date_str (today w) +:+ "_" +:+ clean_id +:+ ".pdf" ∧
    occurs "/" filename = false ∧
    p = TEMP_DIR +:+ "/" +:+ filename ∧
    files (snd (download_paper w e st)) !! p = Some content.
Proof.
  intros Hp.
  destruct (proj1 (download_paper_some w e st p) Hp) as (x & Hid & Hpath & _).
  destruct (download_paper_files _ _ _ _ _ Hid Hp) as (r & content & _ & _ & Hf).
  exists x, (replace_char "/" "_" x),
    (date_str (today w) +:+ "_" +:+ replace_char "/" "_" x +:+ ".pdf"), content.
  split_and!; try done.
  - apply replace_char_length.
  - intros i c Hc. by rewrite replace_char_get, Hc.
  - rewrite !occurs_app, date_str_no_slash, replace_char_no_slash. done.
  - by rewrite Hpath, scratch_path_eq.
  - rewrite Hf. apply lookup_insert_eq.
Qed.

Lemma download_paper_requests_str w e st x :
  entry_id e = Ret (PStr x) →
  requests (snd (download_paper w e st)) = (requests st ++ [document_url x])%list.
Proof.
  intros H. unfold download_paper. rewrite H.
  unfold try_except, download_body, mbind, M_bind, lift.
  rewrite str_format_pdf. cbn [py_replace_slash py_str session_get].
  destruct (http_get w (document_url x)) as [r|]; [|done].
  destruct (resp_status r =? 200)%Z; [|done].
  destruct (resp_read r) as [content|]; [|done].
  unfold write_file.
  by destruct (disk_write w _ content).
Qed.

Lemma download_paper_requests_other w e st :
  (∀ x, entry_id e ≠ Ret (PStr x)) →
  requests (snd (download_paper w e st)) = requests st.
Proof.
  intros H. unfold download_paper.
  destruct (entry_id e) as [v|]; [|done].
  unfold try_except, download_body, mbind, M_bind, lift.
  rewrite str_format_pdf.
  destruct v; try done. by destruct (H s).
Qed.

(** ** fetch_papers *)

(** C4.  [fetch_papers] returns a value exactly when the listing GET
    answers 200 and the body decodes to a JSON value with a length, and
    the value is then the whole decoded body, in particular any decoded
    list of entries; on every other status it raises the request
    failure, so it returns no listing at all. *)
Theorem fetch_papers_outcome (w : World) (st : state) :
  (∀ papers, fst (fetch_papers w st) = Ret papers ↔
     ∃ r n, http_get w HF_API_URL = Ret r ∧ resp_status r = 200%Z ∧
            resp_json r = Ret papers ∧ py_len papers = Ret n) ∧
  (∀ r l, http_get w HF_API_URL = Ret r → resp_status r = 200%Z →
          resp_json r = Ret (PList l) →
          fst (fetch_papers w st) = Ret (PList l)) ∧
  (∀ r, http_get w HF_API_URL = Ret r → resp_status r ≠ 200%Z →
        fst (fetch_papers w st) = Raise (ApiRequestFailed (resp_status r))).
Proof.
  unfold fetch_papers, mbind, M_bind, session_get, lift, print, ret, raise.
  split_and!.
  - intros papers. split.
    + destruct (http_get w HF_API_URL) as [r|] eqn:Hget; [|done].
      destruct (Z.eqb_spec (resp_status r) 200) as [Hst|]; [|done].
      destruct (resp_json r) as [v|] eqn:Hjson; [|done].
      destruct (py_len v) as [n|] eqn:Hlen; [|done].
      simpl. intros [= <-]. by exists r, n.
    + intros (r & n & -> & -> & -> & ->). done.
  - intros r l -> -> ->. done.
  - intros r -> Hst. by destruct (Z.eqb_spec (resp_status r) 200).
Qed.

(** ** parse_paper_data *)

Ltac in_required :=
  unfold required_fields;
  repeat (apply elem_of_cons; first [left; reflexivity | right]).

Lemma parse_paper_data_fields (iso8601 : string → bool) (e : pyval) :
  parse_paper_data iso8601 e =
    (id ← paper_field e "id";
     title ← paper_field e "title";
     authors ← paper_field e "authors";
     summary ← paper_field e "summary";
     published_at ← paper_field e "publishedAt";
     make_paper iso8601 id title authors summary published_at
       (document_url (py_str id))).
Proof.
  unfold parse_paper_data, paper_field, mbind, outcome_bind.
  destruct (subscript e "paper") as [pd|]; [|done].
  destruct (subscript pd "id") as [id|]; [|done].
  destruct (subscript pd "title"); [|done].
  destruct (subscript pd "authors"); [|done].
  destruct (subscript pd "summary"); [|done].
  destruct (subscript pd "publishedAt"); [|done].
  by rewrite str_format_pdf.
Qed.

Lemma parse_paper_data_inv (iso8601 : string → bool) (e : pyval) (r : Paper) :
  parse_paper_data iso8601 e = Ret r →
  paper_field e "id" = Ret (paper_id r) ∧
  paper_field e "title" = Ret (title r) ∧
  paper_field e "authors" = Ret (authors r) ∧
  paper_field e "summary" = Ret (summary r) ∧
  paper_field e "publishedAt" = Ret (published_at r) ∧
  pdf_url r = document_url (py_str (paper_id r)) ∧
  explanation r = None.
Proof.
  rewrite parse_paper_data_fields. unfold mbind, outcome_bind.
  destruct (paper_field e "id"); [|done].
  destruct (paper_field e "title"); [|done].
  destruct (paper_field e "authors"); [|done].
  destruct (paper_field e "summary"); [|done].
  destruct (paper_field e "publishedAt"); [|done].
  unfold make_paper. destruct (well_shaped _ _ _ _ _ _); [|done].
  by intros [= <-].
Qed.

(** C6.  The record [parse_paper_data] builds depends on the entry
    alone, and on it only through the five fields of the nested paper
    object: entries that agree on them give the same outcome, and each
    field of the record is the entry's field, the document URL being
    the template instantiated with the id. *)
Theorem parse_paper_data_pure (iso8601 : string → bool) (e1 e2 : pyval) :
  (∀ k, k ∈ required_fields → paper_field e1 k = paper_field e2 k) →
  parse_paper_data iso8601 e1 = parse_paper_data iso8601 e2 ∧
  ∀ r, parse_paper_data iso8601 e1 = Ret r →
    paper_field e2 "id" = Ret (paper_id r) ∧
    paper_field e2 "title" = Ret (title r) ∧
    paper_field e2 "authors" = Ret (authors r) ∧
    paper_field e2 "summary" = Ret (summary r) ∧
    paper_field e2 "publishedAt" = Ret (published_at r) ∧
    str_format PDF_BASE_URL (paper_id r) = Ret (pdf_url r) ∧
    explanation r = None.
Proof.
  intros Hagree.
  assert (Heq : parse_paper_data iso8601 e1 = parse_paper_data iso8601 e2).
  { rewrite !parse_paper_data_fields.
    rewrite !Hagree by in_required. done. }
  split; [done|]. intros r Hr. rewrite Heq in Hr.
  apply parse_paper_data_inv in Hr as (? & ? & ? & ? & ? & Hurl & ?).
  rewrite str_format_pdf, Hurl. done.
Qed.



(** C5.  The document URL the normaliser stores and the URL
    [download_paper] requests for the same entry are one instance of
    [PDF_BASE_URL] with the entry's id: the download of an entry with a
    string id issues exactly that request, and no download ever issues a
    request to another URL. *)
Theorem pdf_url_single_template (iso8601 : string → bool) (w : World)
    (e : pyval) (st : state) (rec : Paper) :
  parse_paper_data iso8601 e = Ret rec →
  ∃ id, entry_id e = Ret id ∧
        str_format PDF_BASE_URL id = Ret (pdf_url rec) ∧
        (∀ x, id = PStr x →
              requests (snd (download_paper w e st)) =
              (requests st ++ [pdf_url rec])%list) ∧
        (∀ u, u ∈ requests (snd (download_paper w e st)) →
              u ∈ requests st ∨ u = pdf_url rec).
Proof.
  intros Hrec.
  apply parse_paper_data_inv in Hrec as (Hid & _ & _ & _ & _ & Hurl & _).
  change (paper_field e "id") with (entry_id e) in Hid.
  exists (paper_id rec). rewrite str_format_pdf, Hurl.
  split_and!; try done.
  - intros x Hx. rewrite Hx in Hid |- *.
    by rewrite (download_paper_requests_str _ _ _ _ Hid).
  - intros u. destruct (paper_id rec) as [| | |x| |] eqn:Hv;
      try (rewrite download_paper_requests_other by congruence; by left).
    rewrite (download_paper_requests_str _ _ _ _ Hid).
    rewrite elem_of_app, list_elem_of_singleton. done.
Qed.

(** ** download_papers *)

Lemma gather_ret w papers st results :
  fst (gather (map (download_paper w) papers) st) = Ret results →
  Forall2 (λ e r, ∀ st', fst (download_paper w e st') = Ret r) papers results.
Proof.
  revert st results. induction papers as [|e papers IH]; intros st results.
  - intros [= <-]. constructor.
  - simpl.
    destruct (download_paper w e st) as [r st1] eqn:He.
    destruct (gather (map (download_paper w) papers) st1) as [rs st2] eqn:Hrs.
    simpl. destruct r as [a|], rs as [l|]; intros [= <-].
    constructor.
    + intros st'. by rewrite (download_paper_fst w e st' st), He.
    + apply (IH st1). by rewrite Hrs.
Qed.

Lemma gather_all_ret w papers st results :
  Forall2 (λ e r, fst (download_paper w e st) = Ret r) papers results →
  fst (gather (map (download_paper w) papers) st) = Ret results.
Proof.
  intros H. revert st H. induction papers as [|e papers IH] in results |- *;
    intros st H; inversion H as [|? r ? rs He Hrest]; subst; [done|].
  simpl.
  destruct (download_paper w e st) as [r' st1] eqn:He'.
  simpl in He. subst r'.
  specialize (IH rs st1).
  destruct (gather (map (download_paper w) papers) st1) as [rs' st2].
  simpl in *. rewrite IH; [done|].
  eapply Forall2_impl; [exact Hrest|].
  intros e' r' Hr'. by rewrite (download_paper_fst w e' st1 st).
Qed.

Lemma download_papers_fst w papers st :
  fst (download_papers w papers st) =
    (results ← fst (gather (map (download_paper w) papers) st);
     paper_paths ← collect_paths (zip papers results) ∅;
     _ ← count_successful results;
     Ret paper_paths).
Proof.
  unfold download_papers, mbind, M_bind, outcome_bind, lift.
  destruct (gather (map (download_paper w) papers) st) as [[results|] st1];
    [|done]. simpl.
  destruct (collect_paths (zip papers results) ∅); [|done].
  by destruct (count_successful results).
Qed.

Lemma count_successful_ret results n :
  count_successful results = Ret n →
  n = List.length results ∧
  Forall (λ r, ∃ p, r = Some p ∧ (2 ≤ String.length p)%nat) results.
Proof.
  revert n. induction results as [|r results IH]; intros n.
  - intros [= <-]. by split.
  - simpl. unfold mbind, outcome_bind, status_1.
    destruct r as [p|]; [|done].
    destruct (decide (String.length p < 2)%nat); [done|].
    destruct (count_successful results) as [n'|]; [|done].
    destruct (IH n' eq_refl) as [-> Hall]. intros [= <-].
    split; [done|]. constructor; [|done]. exists p. split; [done|lia].
Qed.

Lemma count_successful_all results :
  Forall (λ r, ∃ p, r = Some p ∧ (2 ≤ String.length p)%nat) results →
  count_successful results = Ret (List.length results).
Proof.
  induction 1 as [|r results (p & -> & Hp) _ IH]; [done|].
  simpl. unfold mbind, outcome_bind, status_1.
  destruct (decide (String.length p < 2)%nat); [lia|]. by rewrite IH.
Qed.

Lemma count_successful_none results :
  Forall (λ r, ∀ p, r = Some p → (2 ≤ String.length p)%nat) results →
  None ∈ results →
  count_successful results = Raise TypeError.
Proof.
  induction 1 as [|r results Hr Hall IH]; intros Hin.
  - by apply elem_of_nil in Hin.
  - simpl. unfold mbind, outcome_bind, status_1.
    destruct r as [p|]; [|done].
    destruct (decide (String.length p < 2)%nat) as [Hlt|].
    { specialize (Hr p eq_refl). lia. }
    apply elem_of_cons in Hin as [|Hin]; [done|]. by rewrite IH.
Qed.

Lemma collect_paths_lookup pairs m0 m k v :
  collect_paths pairs m0 = Ret m → m !! k = Some v →
  m0 !! k = Some v ∨
  ∃ e, (e, Some v) ∈ pairs ∧ v ≠ "" ∧ entry_key e = Ret k.
Proof.
  revert m0. induction pairs as [|[e r] pairs IH]; intros m0; simpl.
  { intros [= <-]. by left. }
  assert (Hskip : collect_paths pairs m0 = Ret m → m !! k = Some v →
    m0 !! k = Some v ∨
    ∃ e', (e', Some v) ∈ (e, r) :: pairs ∧ v ≠ "" ∧ entry_key e' = Ret k).
  { intros H1 H2. destruct (IH _ H1 H2) as [|(e' & Hin & ?)]; [by left|].
    right. exists e'. split; [by right|done]. }
  destruct r as [p|]; [|done].
  destruct (String.eqb_spec p "") as [|Hp]; [done|].
  unfold mbind, outcome_bind.
  destruct (entry_id e) as [id|] eqn:Hid; [|done].
  destruct (py_hash_key id) as [key|] eqn:Hkey; [|done].
  intros H1 H2. destruct (IH _ H1 H2) as [Hl|(e' & Hin & ?)].
  - destruct (decide (key = k)) as [->|Hne].
    + rewrite lookup_insert_eq in Hl. injection Hl as ->.
      right. exists e. split_and!; [by left|done|].
      unfold entry_key, mbind, outcome_bind. by rewrite Hid.
    + rewrite lookup_insert_ne in Hl by done. by left.
  - right. exists e'. split; [by right|done].
Qed.

Lemma insert_all_lookup_notin kvs m0 k :
  k ∉ kvs.*1 → insert_all kvs m0 !! k = m0 !! k.
Proof.
  revert m0. induction kvs as [|[k' v'] kvs IH]; intros m0 Hk; [done|].
  rewrite fmap_cons, not_elem_of_cons in Hk. destruct Hk as [Hne Hk].
  unfold insert_all in *. simpl. rewrite IH by done.
  by rewrite lookup_insert_ne.
Qed.

Lemma insert_all_lookup_in (f : hkey → string) kvs m0 k :
  (∀ kv, kv ∈ kvs → kv.2 = f kv.1) →
  k ∈ kvs.*1 → insert_all kvs m0 !! k = Some (f k).
Proof.
  revert m0. induction kvs as [|[k' v'] kvs IH]; intros m0 Hf Hk.
  { by apply elem_of_nil in Hk. }
  change (insert_all ((k', v') :: kvs) m0)
    with (insert_all kvs (<[k' := v']> m0)).
  destruct (decide (k ∈ kvs.*1)) as [Hin|Hnotin].
  - apply IH; [|done]. intros kv Hkv. apply Hf. by right.
  - rewrite insert_all_lookup_notin by done.
    rewrite fmap_cons in Hk. apply elem_of_cons in Hk as [->|]; [|done].
    rewrite lookup_insert_eq. f_equal. apply (Hf (k', v')). by left.
Qed.

Lemma insert_all_dom kvs m0 :
  dom (insert_all kvs m0) = list_to_set kvs.*1 ∪ dom m0.
Proof.
  revert m0. induction kvs as [|[k' v'] kvs IH]; intros m0.
  { simpl. set_solver. }
  change (insert_all ((k', v') :: kvs) m0)
    with (insert_all kvs (<[k' := v']> m0)).
  rewrite IH, dom_insert_L. simpl. set_solver.
Qed.

Lemma size_list_to_set_le (l : list hkey) :
  (size (list_to_set l : gset hkey) ≤ List.length l)%nat.
Proof.
  induction l as [|a l IH].
  - rewrite list_to_set_nil, size_empty. done.
  - rewrite list_to_set_cons, size_union_alt, size_singleton.
    pose proof (subseteq_size (list_to_set l ∖ {[a]}) (list_to_set l : gset hkey)
                  ltac:(set_solver)).
    simpl. lia.
Qed.

Lemma size_list_to_set_NoDup (l : list hkey) :
  size (list_to_set l : gset hkey) = List.length l ↔ NoDup l.
Proof.
  split; [|apply size_list_to_set].
  induction l as [|a l IH]; [constructor|].
  rewrite list_to_set_cons. simpl.
  intros Hsize. destruct (decide (a ∈ l)) as [Hin|Hnotin].
  - pose proof (size_list_to_set_le l).
    replace ({[a]} ∪ list_to_set l : gset hkey) with (list_to_set l : gset hkey)
      in Hsize by set_solver.
    lia.
  - constructor; [done|]. apply IH.
    rewrite size_union, size_singleton in Hsize by set_solver. lia.
Qed.

(** A batch whose downloads all succeed, with the ids of its entries. *)
Lemma all_succeed_ids w papers st :
  Forall (λ e, ∃ p, fst (download_paper w e st) = Ret (Some p)) papers →
  ∃ xs : list string,
    Forall2 (λ e x, entry_id e = Ret (PStr x) ∧
                    fst (download_paper w e st) = Ret (Some (key_path w (KStr x))))
            papers xs.
Proof.
  induction 1 as [|e papers [p Hp] _ [xs IH]].
  - exists []. constructor.
  - destruct (proj1 (download_paper_some w e st p) Hp) as (x & Hid & -> & _).
    exists (x :: xs). by constructor.
Qed.

Lemma collect_paths_all_succeed w papers xs m0 :
  Forall2 (λ e x, entry_id e = Ret (PStr x)) papers xs →
  collect_paths (zip papers ((λ x, Some (key_path w (KStr x))) <$> xs)) m0 =
  Ret (insert_all ((λ x, (KStr x, key_path w (KStr x))) <$> xs) m0).
Proof.
  intros H. revert m0. induction H as [|e x papers xs Hid _ IH]; intros m0.
  { reflexivity. }
  rewrite !fmap_cons. cbn [zip zip_with collect_paths key_path].
  pose proof (scratch_path_nonempty w (replace_char "/" "_" x)) as Hne.
  destruct (String.eqb_spec (scratch_path w (replace_char "/" "_" x)) "")
    as [Hempty|_]; [contradiction|].
  unfold mbind, outcome_bind. rewrite Hid. cbn [py_hash_key]. apply IH.
Qed.

#[local] Instance KStr_inj : Inj (=) (=) KStr.
Proof. by intros x y [= ->]. Qed.

#[local] Instance Ret_PStr_inj : Inj (=) (=) (λ x, Ret (PStr x)).
Proof. by intros x y [= ->]. Qed.

(** C1 (amended).  When every download of a batch of N entries
    succeeds, [download_papers] returns a mapping in which the id of
    every entry is bound to the scratch path of that entry's download and
    every key is the id of an entry: one outcome per distinct paper id,
    so at most N, and exactly N if and only if the ids of the batch are
    pairwise distinct. *)
Theorem download_papers_all_succeed (w : World) (papers : list pyval)
    (st : state) :
  Forall (λ e, ∃ p, fst (download_paper w e st) = Ret (Some p)) papers →
  ∃ m, fst (download_papers w papers st) = Ret m ∧
       (∀ e, e ∈ papers →
             ∃ x, entry_id e = Ret (PStr x) ∧
                  m !! KStr x = Some (scratch_path w (replace_char "/" "_" x))) ∧
       (∀ k, is_Some (m !! k) →
             ∃ e x, e ∈ papers ∧ entry_id e = Ret (PStr x) ∧ k = KStr x) ∧
       (size m ≤ List.length papers)%nat ∧
       (size m = List.length papers ↔ NoDup (entry_id <$> papers)).
Proof.
  intros Hall. destruct (all_succeed_ids _ _ _ Hall) as [xs Hxs].
  set (results := (λ x, Some (key_path w (KStr x))) <$> xs).
  set (kvs := (λ x, (KStr x, key_path w (KStr x))) <$> xs).
  assert (Hids : Forall2 (λ e x, entry_id e = Ret (PStr x)) papers xs).
  { eapply Forall2_impl; [exact Hxs|]. by intros e x [? _]. }
  assert (Hlen : List.length papers = List.length xs)
    by apply (Forall2_length _ _ _ Hxs).
  assert (Hk1 : kvs.*1 = KStr <$> xs).
  { unfold kvs. rewrite <-list_fmap_compose. done. }
  assert (Hidl : entry_id <$> papers = (λ x, Ret (PStr x)) <$> xs).
  { clear -Hids. induction Hids as [|e x papers xs Hid _ IH]; [done|].
    rewrite !fmap_cons. by rewrite Hid, IH. }
  exists (insert_all kvs ∅).
  assert (Hdom : dom (insert_all kvs ∅) = list_to_set (KStr <$> xs)).
  { rewrite insert_all_dom, Hk1, dom_empty_L. set_solver. }
  split_and!.
  - rewrite download_papers_fst.
    rewrite (gather_all_ret w papers st results).
    2:{ unfold results. apply Forall2_fmap_r.
        eapply Forall2_impl; [exact Hxs|]. by intros e x [_ ?]. }
    unfold mbind at 1, outcome_bind at 1.
    unfold results. rewrite (collect_paths_all_succeed w papers xs ∅ Hids).
    unfold mbind at 1, outcome_bind at 1.
    rewrite count_successful_all; [done|].
    apply Forall_fmap, Forall_forall. intros x _. simpl.
    eexists. split; [done|]. apply scratch_path_length.
  - intros e He. apply list_elem_of_lookup in He as [i Hi].
    destruct (Forall2_lookup_l _ _ _ _ _ Hids Hi) as (x & Hx & Hid).
    exists x. split; [done|].
    apply (insert_all_lookup_in (key_path w)).
    + intros kv Hkv. unfold kvs in Hkv.
      apply list_elem_of_fmap in Hkv as (x' & -> & _). done.
    + rewrite Hk1. apply list_elem_of_fmap_2. by eapply list_elem_of_lookup_2.
  - intros k Hk. apply elem_of_dom in Hk. rewrite Hdom in Hk.
    apply elem_of_list_to_set, list_elem_of_fmap in Hk as (x & -> & Hx).
    apply list_elem_of_lookup in Hx as [i Hi].
    destruct (Forall2_lookup_r _ _ _ _ _ Hids Hi) as (e & He & Hid).
    exists e, x. split_and!; [by eapply list_elem_of_lookup_2|done|done].
  - rewrite <-size_dom, Hdom, Hlen, <-(length_fmap KStr xs).
    apply size_list_to_set_le.
  - rewrite <-size_dom, Hdom, Hlen, <-(length_fmap KStr xs).
    rewrite size_list_to_set_NoDup, Hidl.
    rewrite (NoDup_fmap KStr), (NoDup_fmap (λ x, Ret (PStr x))). done.
Qed.

Lemma collect_paths_kept pairs m0 m k :
  collect_paths pairs m0 = Ret m → is_Some (m0 !! k) → is_Some (m !! k).
Proof.
  revert m0. induction pairs as [|[e r] pairs IH]; intros m0; simpl.
  { by intros [= <-]. }
  destruct r as [p|]; [|apply IH].
  destruct (String.eqb p ""); [apply IH|].
  unfold mbind, outcome_bind.
  destruct (entry_id e) as [id|]; [|done].
  destruct (py_hash_key id) as [key|]; [|done].
  intros Hm Hk. apply (IH _ Hm).
  destruct (decide (key = k)) as [->|Hne].
  - rewrite lookup_insert_eq. eauto.
  - by rewrite lookup_insert_ne.
Qed.

Lemma collect_paths_stored pairs m0 m e v k :
  collect_paths pairs m0 = Ret m →
  (e, Some v) ∈ pairs → v ≠ "" → entry_key e = Ret k →
  is_Some (m !! k).
Proof.
  revert m0. induction pairs as [|[e' r] pairs IH]; intros m0 Hm Hin Hv Hk.
  { by apply elem_of_nil in Hin. }
  simpl in Hm. apply elem_of_cons in Hin as [[= <- <-]|Hin].
  - destruct (String.eqb_spec v "") as [|_]; [done|].
    unfold entry_key in Hk. unfold mbind, outcome_bind in *.
    destruct (entry_id e) as [id|]; [|done]. rewrite Hk in Hm.
    apply (collect_paths_kept _ _ _ k Hm). rewrite lookup_insert_eq. eauto.
  - destruct r as [p|]; [|by eapply IH].
    destruct (String.eqb p ""); [by eapply IH|].
    unfold mbind, outcome_bind in Hm.
    destruct (entry_id e') as [id|]; [|done].
    destruct (py_hash_key id) as [key|]; [|done].
    by eapply IH.
Qed.

Lemma collect_paths_gathered w papers st results m0 :
  Forall2 (λ e r, fst (download_paper w e st) = Ret r) papers results →
  ∃ m, collect_paths (zip papers results) m0 = Ret m.
Proof.
  intros Hres. revert m0.
  induction Hres as [|e r papers results He _ IH]; intros m0; [by eexists|].
  simpl. destruct r as [p|]; [|apply IH].
  destruct (String.eqb p ""); [apply IH|].
  destruct (proj1 (download_paper_some w e st p) He) as (x & Hid & _ & _).
  unfold mbind, outcome_bind. rewrite Hid. simpl. apply IH.
Qed.

(** C10.  Of the mapping that lines 58-61 build from the gathered
    results, which is the mapping [download_papers] returns whenever it
    returns: every key is the id of an entry of the batch and its value
    is the path that entry's download returned; the id of every entry
    with a path is a key bound to that path; and the id of an entry whose
    download returned [None] is not a key. *)
Theorem download_papers_keys (w : World) (papers : list pyval) (st : state)
    (results : list (option string)) :
  Forall2 (λ e r, fst (download_paper w e st) = Ret r) papers results →
  ∃ m : gmap hkey string,
    collect_paths (zip papers results) ∅ = Ret m ∧
    (∀ m', fst (download_papers w papers st) = Ret m' → m' = m) ∧
    (∀ k v, m !! k = Some v →
       ∃ i e x, papers !! i = Some e ∧ results !! i = Some (Some v) ∧
                entry_id e = Ret (PStr x) ∧ k = KStr x ∧
                ∀ st', fst (download_paper w e st') = Ret (Some v)) ∧
    (∀ i e v, papers !! i = Some e → results !! i = Some (Some v) →
       ∃ x, entry_id e = Ret (PStr x) ∧ m !! KStr x = Some v) ∧
    (∀ i e k, papers !! i = Some e → results !! i = Some None →
       entry_key e = Ret k → m !! k = None).
Proof.
  intros Hres.
  destruct (collect_paths_gathered w papers st results ∅ Hres) as [m Hc].
  exists m.
  assert (Hdl : ∀ i e r, papers !! i = Some e → results !! i = Some r →
                 ∀ st', fst (download_paper w e st') = Ret r).
  { intros i e r He Hr st'.
    rewrite (download_paper_fst w e st' st).
    exact (Forall2_lookup_lr _ _ _ _ _ _ Hres He Hr). }
  assert (Hkeys : ∀ k v, m !! k = Some v →
     ∃ i e x, papers !! i = Some e ∧ results !! i = Some (Some v) ∧
              entry_id e = Ret (PStr x) ∧ k = KStr x ∧
              ∀ st', fst (download_paper w e st') = Ret (Some v)).
  { intros k v Hkv.
    destruct (collect_paths_lookup _ _ _ _ _ Hc Hkv) as [Hl|(e & Hin & _ & Hk)].
    { by rewrite lookup_empty in Hl. }
    apply list_elem_of_lookup in Hin as [i Hi].
    apply lookup_zip_with_Some in Hi as (e' & r & [= <- <-] & He & Hr).
    destruct (proj1 (download_paper_some w e st v) (Hdl i e _ He Hr st))
      as (x & Hid & _ & _).
    exists i, e, x. split_and!; try done.
    - unfold entry_key, mbind, outcome_bind in Hk. rewrite Hid in Hk.
      by injection Hk as <-.
    - by apply (Hdl i e). }
  split_and!; [done| |exact Hkeys| |].
  - intros m'. rewrite download_papers_fst, (gather_all_ret _ _ _ _ Hres).
    unfold mbind, outcome_bind. rewrite Hc.
    destruct (count_successful results); [|done]. by intros [= <-].
  - intros i e v He Hr.
    destruct (proj1 (download_paper_some w e st v) (Hdl i e _ He Hr st))
      as (x & Hid & Hv & _).
    exists x. split; [done|].
    destruct (collect_paths_stored (zip papers results) ∅ m e v (KStr x) Hc)
      as [v' Hv'].
    + apply list_elem_of_lookup. exists i.
      apply lookup_zip_with_Some. by exists e, (Some v).
    + rewrite Hv. apply scratch_path_nonempty.
    + unfold entry_key, mbind, outcome_bind. by rewrite Hid.
    + rewrite Hv'. f_equal.
      destruct (Hkeys _ _ Hv') as (i' & e' & x' & _ & _ & Hid' & [= <-] & Hdl').
      specialize (Hdl' st). specialize (Hdl i e _ He Hr st).
      rewrite (download_paper_str _ _ _ _ Hid) in Hdl.
      rewrite (download_paper_str _ _ _ _ Hid') in Hdl'. congruence.
  - intros i e k He Hr Hk.
    destruct (m !! k) as [v|] eqn:Hkv; [|done].
    destruct (Hkeys k v Hkv) as (i' & e' & x & _ & _ & Hid' & -> & Hv).
    unfold entry_key, mbind, outcome_bind in Hk.
    destruct (entry_id e) as [id|] eqn:Hid; [|done].
    destruct id; try done. injection Hk as ->.
    specialize (Hdl i e _ He Hr st). specialize (Hv st).
    rewrite (download_paper_str _ _ _ _ Hid) in Hdl.
    rewrite (download_paper_str _ _ _ _ Hid') in Hv. congruence.
Qed.

(** A failed download makes the count of line 62 subscript [None]. *)
Lemma download_papers_failure_raises w papers st :
  Forall (λ e, ∃ v, entry_id e = Ret v) papers →
  (∃ e, e ∈ papers ∧ fst (download_paper w e st) = Ret None) →
  fst (download_papers w papers st) = Raise TypeError.
Proof.
  intros Hbound (e0 & He0 & Hnone).
  assert (Hres : ∃ results,
    Forall2 (λ e r, fst (download_paper w e st) = Ret r) papers results).
  { clear -Hbound. induction Hbound as [|e papers [v Hv] _ [rs IH]].
    - exists []. constructor.
    - destruct (download_paper_bound w e st v Hv) as [o Ho].
      exists (o :: rs). by constructor. }
  destruct Hres as [results Hres].
  rewrite download_papers_fst, (gather_all_ret _ _ _ _ Hres).
  unfold mbind at 1, outcome_bind at 1.
  assert (Hpaths : Forall (λ r, ∀ p, r = Some p → (2 ≤ String.length p)%nat) results).
  { apply Forall_forall. intros r Hr p ->.
    apply list_elem_of_lookup in Hr as [i Hi].
    destruct (Forall2_lookup_r _ _ _ _ _ Hres Hi) as (e & _ & He).
    destruct (proj1 (download_paper_some w e st p) He) as (x & _ & -> & _).
    apply scratch_path_length. }
  assert (Hin : None ∈ results).
  { apply list_elem_of_lookup in He0 as [i Hi].
    destruct (Forall2_lookup_l _ _ _ _ _ Hres Hi) as (r & Hr & He).
    rewrite Hnone in He. injection He as <-. by eapply list_elem_of_lookup_2. }
  destruct (collect_paths (zip papers results) ∅) as [m|err] eqn:Hc.
  - unfold mbind, outcome_bind.
    by rewrite (count_successful_none _ Hpaths Hin).
  - exfalso. clear -Hc Hres. revert Hc. generalize (∅ : gmap hkey string).
    induction Hres as [|e r papers results He _ IH]; intros m0; [done|].
    simpl. destruct r as [p|]; [|apply IH].
    destruct (String.eqb p ""); [apply IH|].
    destruct (proj1 (download_paper_some w e st p) He) as (x & Hid & _ & _).
    unfold mbind, outcome_bind. rewrite Hid. simpl. apply IH.
Qed.

(** When the summary line is printed, its numbers are right. *)
Lemma download_papers_summary w papers st successful total :
  Summary successful total ∈ stdout (snd (download_papers w papers st)) →
  Summary successful total ∈ stdout (snd (gather (map (download_paper w) papers) st)) ∨
  (total = List.length papers ∧
   ∃ results, fst (gather (map (download_paper w) papers) st) = Ret results ∧
              successful = List.length results ∧
              Forall (λ r, is_Some r) results).
Proof.
  unfold download_papers, mbind, M_bind, lift, print, ret.
  destruct (gather (map (download_paper w) papers) st) as [[results|] st1];
    [|by left]. simpl.
  destruct (collect_paths (zip papers results) ∅); [|by left].
  destruct (count_successful results) as [n|] eqn:Hn; [|by left].
  simpl. rewrite elem_of_app, list_elem_of_singleton.
  intros [?|[= -> ->]]; [by left|right].
  apply count_successful_ret in Hn as [-> Hall].
  split; [done|]. exists results. split_and!; try done.
  eapply Forall_impl; [exact Hall|]. by intros r (p & -> & _).
Qed.

(** * Further properties of the fetcher *)

(** ** Entries without an id *)

(** X1.  [download_paper] raises exactly on the entries whose
    [paper_entry["paper"]["id"]] cannot be read, the exception is then
    always the [UnboundLocalError] of the handler, and nothing has been
    requested, written or printed. *)
Theorem download_paper_raises_iff (w : World) (e : pyval) (st : state) :
  (∀ ex, fst (download_paper w e st) = Raise ex ↔
         (∃ err, entry_id e = Raise err) ∧ ex = UnboundLocalError "paper_id") ∧
  (∀ err, entry_id e = Raise err → snd (download_paper w e st) = st).
Proof.
  split.
  - intros ex. split.
    + destruct (entry_id e) as [v|err] eqn:H.
      * destruct (download_paper_bound w e st v H) as [o ->]. done.
      * rewrite (download_paper_unbound _ _ _ _ H). intros [= <-]. eauto.
    + intros [[err H] ->]. by rewrite (download_paper_unbound _ _ _ _ H).
  - intros err H. by rewrite (download_paper_unbound _ _ _ _ H).
Qed.

Lemma gather_unbound w papers st :
  Exists (λ e, ∃ err, entry_id e = Raise err) papers →
  fst (gather (map (download_paper w) papers) st) =
  Raise (UnboundLocalError "paper_id").
Proof.
  revert st. induction papers as [|e papers IH]; intros st Hex.
  { by apply Exists_nil in Hex. }
  simpl.
  destruct (download_paper w e st) as [r st1] eqn:He.
  destruct (gather (map (download_paper w) papers) st1) as [rs st2] eqn:Hrs.
  simpl.
  destruct (entry_id e) as [v|err] eqn:Hid.
  - apply Exists_cons in Hex as [[err Herr]|Hex]; [congruence|].
    specialize (IH st1 Hex). rewrite Hrs in IH. simpl in IH. subst rs.
    destruct (download_paper_bound w e st v Hid) as [o Ho].
    rewrite He in Ho. simpl in Ho. by subst r.
  - rewrite (download_paper_unbound _ _ _ _ Hid) in He.
    by injection He as <- <-.
Qed.

(** X2.  One entry without an id makes the whole batch raise the
    [UnboundLocalError], whatever the other entries are. *)
Theorem download_papers_unbound (w : World) (papers : list pyval) (st : state) :
  (∃ e err, e ∈ papers ∧ entry_id e = Raise err) →
  fst (download_papers w papers st) = Raise (UnboundLocalError "paper_id").
Proof.
  intros (e & err & He & Herr).
  rewrite download_papers_fst, gather_unbound; [done|].
  apply Exists_exists. exists e. eauto.
Qed.

Lemma download_papers_succeed_ret w papers st :
  Forall (λ e, ∃ p, fst (download_paper w e st) = Ret (Some p)) papers →
  ∃ m, fst (download_papers w papers st) = Ret m.
Proof.
  intros Hall. destruct (all_succeed_ids _ _ _ Hall) as [xs Hxs].
  assert (Hids : Forall2 (λ e x, entry_id e = Ret (PStr x)) papers xs).
  { eapply Forall2_impl; [exact Hxs|]. by intros e x [? _]. }
  eexists. rewrite download_papers_fst.
  rewrite (gather_all_ret w papers st
             ((λ x, Some (key_path w (KStr x))) <$> xs)).
  2:{ apply Forall2_fmap_r.
      eapply Forall2_impl; [exact Hxs|]. by intros e x [_ ?]. }
  unfold mbind at 1, outcome_bind at 1.
  rewrite (collect_paths_all_succeed w papers xs ∅ Hids).
  unfold mbind at 1, outcome_bind at 1.
  rewrite count_successful_all; [done|].
  apply Forall_fmap, Forall_forall. intros x _. simpl.
  eexists. split; [done|]. apply scratch_path_length.
Qed.

(** X3.  For a batch whose entries all carry an id, [download_papers]
    returns a mapping exactly when every download succeeded; as soon as
    one download returned [None] it raises [TypeError]. *)
Theorem download_papers_returns_iff (w : World) (papers : list pyval)
    (st : state) :
  Forall (λ e, ∃ v, entry_id e = Ret v) papers →
  ((∃ m, fst (download_papers w papers st) = Ret m) ↔
   Forall (λ e, ∃ p, fst (download_paper w e st) = Ret (Some p)) papers) ∧
  ((∃ e, e ∈ papers ∧ fst (download_paper w e st) = Ret None) →
   fst (download_papers w papers st) = Raise TypeError).
Proof.
  intros Hbound. split; [split|].
  - intros [m Hm]. apply Forall_forall. intros e He.
    destruct (proj1 (Forall_forall _ _) Hbound e He) as [v Hv].
    destruct (download_paper_bound w e st v Hv) as [[p|] Ho]; [eauto|].
    rewrite (download_papers_failure_raises w papers st Hbound) in Hm;
      [done|eauto].
  - apply download_papers_succeed_ret.
  - by apply download_papers_failure_raises.
Qed.

(** ** What a run touches *)

Ltac run_download H :=
  unfold download_paper; rewrite H;
  unfold try_except, download_body, mbind, M_bind, lift;
  rewrite str_format_pdf; cbn [py_replace_slash py_str session_get].

Lemma scratch_path_in_scratch w x :
  in_scratch (scratch_path w (replace_char "/" "_" x)).
Proof.
  eexists. split; [apply scratch_path_eq|].
  by rewrite !occurs_app, date_str_no_slash, replace_char_no_slash.
Qed.

Lemma download_paper_files_other w e st path :
  ¬ in_scratch path →
  files (snd (download_paper w e st)) !! path = files st !! path.
Proof.
  intros Hpath. destruct (entry_id e) as [v|err] eqn:H.
  2:{ by rewrite (download_paper_unbound _ _ _ _ H). }
  destruct v as [| | |x| |];
    try (unfold download_paper; rewrite H;
         unfold try_except, download_body, mbind, M_bind, lift;
         by rewrite str_format_pdf).
  run_download H.
  destruct (http_get w (document_url x)) as [r|]; [|done].
  destruct (resp_status r =? 200)%Z; [|done].
  destruct (resp_read r) as [content|]; [|done].
  unfold write_file.
  destruct (disk_write w _ content); [|done].
  unfold print, ret. cbn [snd files]. apply lookup_insert_ne.
  intros <-. apply Hpath, scratch_path_in_scratch.
Qed.

Lemma download_paper_no_summary w e st s t :
  Summary s t ∈ stdout (snd (download_paper w e st)) →
  Summary s t ∈ stdout st.
Proof.
  destruct (entry_id e) as [v|err] eqn:H.
  2:{ by rewrite (download_paper_unbound _ _ _ _ H). }
  assert (Hev : ∀ ev, ev ≠ Summary s t →
            Summary s t ∈ (stdout st ++ [ev])%list → Summary s t ∈ stdout st).
  { intros ev Hne. rewrite elem_of_app, list_elem_of_singleton.
    intros [?|?]; [done|congruence]. }
  destruct v as [| | |x| |];
    try (unfold download_paper; rewrite H;
         unfold try_except, download_body, mbind, M_bind, lift;
         rewrite str_format_pdf; by apply Hev).
  run_download H.
  destruct (http_get w (document_url x)) as [r|]; [|by apply Hev].
  destruct (resp_status r =? 200)%Z; [|by apply Hev].
  destruct (resp_read r) as [content|]; [|by apply Hev].
  unfold write_file.
  destruct (disk_write w _ content); by apply Hev.
Qed.

(** A relation between states that every download keeps is kept by the
    gathered batch. *)
Lemma gather_preserves (R : state → state → Prop) w papers st :
  (∀ a, R a a) → (∀ a b c, R a b → R b c → R a c) →
  (∀ e a, R a (snd (download_paper w e a))) →
  R st (snd (gather (map (download_paper w) papers) st)).
Proof.
  intros Hrefl Htrans Hstep. revert st.
  induction papers as [|e papers IH]; intros st; [apply Hrefl|].
  simpl. specialize (Hstep e st).
  destruct (download_paper w e st) as [r st1].
  specialize (IH st1).
  destruct (gather (map (download_paper w) papers) st1) as [rs st2].
  simpl in *. by eapply Htrans.
Qed.

Lemma download_papers_snd w papers st :
  files (snd (download_papers w papers st)) =
    files (snd (gather (map (download_paper w) papers) st)) ∧
  requests (snd (download_papers w papers st)) =
    requests (snd (gather (map (download_paper w) papers) st)).
Proof.
  unfold download_papers, mbind, M_bind, lift, print, ret.
  destruct (gather (map (download_paper w) papers) st) as [[results|] st1];
    [|done]. simpl.
  destruct (collect_paths (zip papers results) ∅); [|done].
  by destruct (count_successful results).
Qed.

(** X4.  A batch download changes no file outside the scratch
    directory: whatever the ids of the entries are, every path that is
    not [temp_papers/] followed by a name without [/] keeps its
    content. *)
Theorem download_papers_confined (w : World) (papers : list pyval)
    (st : state) (path : string) :
  ¬ in_scratch path →
  files (snd (download_papers w papers st)) !! path = files st !! path.
Proof.
  intros Hpath. rewrite (proj1 (download_papers_snd w papers st)).
  apply (gather_preserves (λ a b, files b !! path = files a !! path)).
  - done.
  - intros a b c Hab Hbc. by rewrite Hbc.
  - intros e a. by apply download_paper_files_other.
Qed.

(** X5.  When the document GET of an entry does not answer 200, gives
    no response, or its body cannot be read, [download_paper] returns
    [None], leaves every file as it was, and prints one line for that
    paper: the status, or the error. *)
Theorem download_paper_failed_get (w : World) (e : pyval) (st : state)
    (x : string) :
  entry_id e = Ret (PStr x) →
  (∀ r, http_get w (document_url x) = Ret r → resp_status r ≠ 200%Z →
     download_paper w e st =
     (Ret None, {| files := files st;
                   requests := requests st ++ [document_url x];
                   stdout := stdout st ++
                             [DownloadFailed (PStr x) (resp_status r)] |})) ∧
  (∀ err, http_get w (document_url x) = Raise err →
     download_paper w e st =
     (Ret None, {| files := files st;
                   requests := requests st ++ [document_url x];
                   stdout := stdout st ++ [DownloadError (PStr x) err] |})) ∧
  (∀ r err, http_get w (document_url x) = Ret r → resp_status r = 200%Z →
     resp_read r = Raise err →
     download_paper w e st =
     (Ret None, {| files := files st;
                   requests := requests st ++ [document_url x];
                   stdout := stdout st ++ [DownloadError (PStr x) err] |})).
Proof.
  intros H. split_and!.
  - intros r Hget Hst. run_download H. rewrite Hget.
    by destruct (Z.eqb_spec (resp_status r) 200).
  - intros err Hget. run_download H. by rewrite Hget.
  - intros r err Hget Hst Hread. run_download H.
    by rewrite Hget, Hst, Hread.
Qed.

Lemma gather_requests w papers st :
  requests (snd (gather (map (download_paper w) papers) st)) =
  (requests st ++ request_urls papers)%list.
Proof.
  revert st. induction papers as [|e papers IH]; intros st.
  { simpl. by rewrite app_nil_r. }
  assert (He1 : requests (snd (download_paper w e st)) =
                (requests st ++ match entry_id e with
                                | Ret (PStr x) => [document_url x]
                                | _ => []
                                end)%list).
  { destruct (entry_id e) as [v|err] eqn:Hid.
    - destruct v as [| | |x| |];
        try (rewrite download_paper_requests_other by congruence;
             by rewrite app_nil_r).
      by rewrite (download_paper_requests_str _ _ _ _ Hid).
    - rewrite download_paper_requests_other by congruence.
      by rewrite app_nil_r. }
  change (request_urls (e :: papers))
    with (match entry_id e with
          | Ret (PStr x) => [document_url x]
          | _ => []
          end ++ request_urls papers)%list.
  simpl gather.
  destruct (download_paper w e st) as [r st1].
  specialize (IH st1).
  destruct (gather (map (download_paper w) papers) st1) as [rs st2].
  simpl in *. rewrite IH, He1. by rewrite <-app_assoc.
Qed.

(** X6.  A batch whose entries all carry an id issues one GET per entry
    with a string id, to that paper's document URL, and no other
    request: no retry, and none for an id that is not a string. *)
Theorem download_papers_requests (w : World) (papers : list pyval)
    (st : state) :
  Forall (λ e, ∃ v, entry_id e = Ret v) papers →
  requests (snd (download_papers w papers st)) ≡ₚ
  (requests st ++ request_urls papers)%list.
Proof.
  intros _. rewrite (proj2 (download_papers_snd w papers st)).
  by rewrite gather_requests.
Qed.

(** X7.  Whatever the listing endpoint answers, [fetch_papers] issues
    exactly one GET, to [HF_API_URL], and writes no file. *)
Theorem fetch_papers_effects (w : World) (st : state) :
  requests (snd (fetch_papers w st)) = (requests st ++ [HF_API_URL])%list ∧
  files (snd (fetch_papers w st)) = files st.
Proof.
  unfold fetch_papers, mbind, M_bind, session_get, lift, print, ret, raise.
  destruct (http_get w HF_API_URL) as [r|]; [|done].
  destruct (resp_status r =? 200)%Z; [|done].
  destruct (resp_json r) as [v|]; [|done].
  by destruct (py_len v).
Qed.

(** X8.  The summary line is never printed by a download, and when
    [download_papers] prints it the batch has returned and the line
    reads N of N: a partial count is never printed. *)
Theorem download_papers_summary_line (w : World) (papers : list pyval)
    (st : state) (successful total : nat) :
  Summary successful total ∈ stdout (snd (download_papers w papers st)) →
  Summary successful total ∈ stdout st ∨
  (successful = List.length papers ∧ total = List.length papers ∧
   ∃ m, fst (download_papers w papers st) = Ret m).
Proof.
  intros Hin.
  assert (Hg : Summary successful total ∈
                 stdout (snd (gather (map (download_paper w) papers) st)) →
               Summary successful total ∈ stdout st).
  { apply (gather_preserves
             (λ a b, Summary successful total ∈ stdout b →
                     Summary successful total ∈ stdout a)).
    - done.
    - intros a b c Hab Hbc Hc. by apply Hab, Hbc.
    - intros e a. apply download_paper_no_summary. }
  revert Hin. unfold download_papers, mbind, M_bind, lift, print, ret.
  destruct (gather (map (download_paper w) papers) st)
    as [[results|] st1] eqn:Hgather; simpl in *; [|by left; apply Hg].
  destruct (collect_paths (zip papers results) ∅) as [m|]; simpl;
    [|by left; apply Hg].
  destruct (count_successful results) as [n|] eqn:Hn; simpl;
    [|by left; apply Hg].
  rewrite elem_of_app, list_elem_of_singleton.
  intros [?|[= -> ->]]; [by left; apply Hg|right].
  apply count_successful_ret in Hn as [-> _].
  assert (Hlen : List.length papers = List.length results).
  { eapply Forall2_length, (gather_ret w papers st). by rewrite Hgather. }
  split_and!; [done|done|eauto].
Qed.

(** ** URLs and scratch paths as functions of the id *)

Lemma string_app_length (a b : string) :
  String.length (a +:+ b) = (String.length a + String.length b)%nat.
Proof. induction a as [|c a IH]; simpl; [done|by rewrite IH]. Qed.

Lemma string_app_inv_head (a b c : string) : a +:+ b = a +:+ c → b = c.
Proof. induction a as [|ch a IH]; simpl; [done|]. intros [= H]. by apply IH. Qed.

Lemma string_app_inv_tail (a b c : string) : a +:+ c = b +:+ c → a = b.
Proof.
  revert b. induction a as [|ch a IH]; intros [|ch' b] H; simpl in H.
  - done.
  - apply (f_equal String.length) in H.
    rewrite ?string_app_length in H. simpl in H.
    rewrite ?string_app_length in H. lia.
  - apply (f_equal String.length) in H.
    rewrite ?string_app_length in H. simpl in H.
    rewrite ?string_app_length in H. lia.
  - injection H as -> H. f_equal. by apply IH.
Qed.

Lemma string_app_empty_r (a : string) : a +:+ "" = a.
Proof.
  induction a as [|c a IH]; [done|].
  change (String c a +:+ "") with (String c (a +:+ "")). by rewrite IH.
Qed.

(** X9.  The template gives different papers different document URLs:
    two string ids with the same instance of [PDF_BASE_URL] are equal. *)
Theorem document_url_injective (x y : string) :
  str_format PDF_BASE_URL (PStr x) = str_format PDF_BASE_URL (PStr y) →
  x = y.
Proof.
  rewrite !str_format_pdf. intros H.
  assert (Hurl : document_url x = document_url y)
    by exact (f_equal (λ o, match o with Ret u => u | Raise _ => "" end) H).
  unfold document_url in Hurl.
  apply string_app_inv_head in Hurl. by apply string_app_inv_tail in Hurl.
Qed.

(** X10.  Two successful downloads are stored in the same scratch file
    exactly when the ids of their entries are equal once each [/] is
    replaced by [_]: ids that differ only in [/] against [_] share one
    file. *)
Theorem download_paper_same_file (w : World) (e1 e2 : pyval)
    (st1 st2 : state) (x1 x2 p1 p2 : string) :
  entry_id e1 = Ret (PStr x1) → entry_id e2 = Ret (PStr x2) →
  fst (download_paper w e1 st1) = Ret (Some p1) →
  fst (download_paper w e2 st2) = Ret (Some p2) →
  (p1 = p2 ↔ replace_char "/" "_" x1 = replace_char "/" "_" x2).
Proof.
  intros H1 H2 Hp1 Hp2.
  apply download_paper_some in Hp1 as (y1 & Hy1 & -> & _).
  apply download_paper_some in Hp2 as (y2 & Hy2 & -> & _).
  rewrite H1 in Hy1. rewrite H2 in Hy2.
  injection Hy1 as <-. injection Hy2 as <-.
  split; [|by intros ->].
  rewrite !scratch_path_eq. intros H.
  apply string_app_inv_head, string_app_inv_head in H.
  apply string_app_inv_head, string_app_inv_head in H.
  by apply string_app_inv_tail in H.
Qed.

(** ** The paper page *)

Lemma document_url_truthy s : py_truthy (PStr (document_url s)) = true.
Proof. reflexivity. Qed.

(** X11.  [get_pdf_download_link] never raises.  It returns the anchor
    to the stored URL, logging nothing, exactly when the store returns a
    dict whose [pdf_url] is true; in every other case, an error of the
    store included, it returns the fixed text and logs one record. *)
Theorem get_pdf_download_link_total (get_paper_by_id : pyval → outcome pyval)
    (paper_id paper_title : pyval) :
  (∃ paper url,
     get_paper_by_id paper_id = Ret (PDict paper) ∧
     dict_get paper "pdf_url" = Some url ∧ py_truthy url = true ∧
     get_pdf_download_link get_paper_by_id paper_id paper_title =
     Ret (pdf_anchor (py_str url), [])) ∨
  ((∃ record,
      get_pdf_download_link get_paper_by_id paper_id paper_title =
      Ret (PDF_UNAVAILABLE, [record])) ∧
   ¬ ∃ paper url,
       get_paper_by_id paper_id = Ret (PDict paper) ∧
       dict_get paper "pdf_url" = Some url ∧ py_truthy url = true).
Proof.
  unfold get_pdf_download_link, pdf_link_body, mbind, outcome_bind.
  destruct (get_paper_by_id paper_id) as [paper|err] eqn:Hdb.
  2:{ right. split; [eauto|]. by intros (? & ? & ? & _). }
  destruct paper as [|[]|z|s|l|d];
    try (right; split; [|by intros (? & ? & ? & _)]; simpl).
  - eauto.
  - eauto.
  - eauto.
  - destruct (z =? 0)%Z; simpl; eauto.
  - destruct (String.eqb s ""); simpl; eauto.
  - destruct l; simpl; eauto.
  - destruct d as [|kv d].
    { right. split; [simpl; eauto|]. by intros (? & ? & [= <-] & ? & _). }
    cbn [py_truthy negb py_get subscript].
    destruct (dict_get (kv :: d) "pdf_url") as [url|] eqn:Hurl.
    + cbn [default from_option id].
      destruct (py_truthy url) eqn:Ht; cbn [negb].
      * left. by exists (kv :: d), url.
      * right. split; [eauto|].
        intros (? & url' & [= <-] & Hurl' & Ht'). congruence.
    + right. split; [simpl; eauto|].
      intros (? & url' & [= <-] & Hurl' & _). congruence.
Qed.

(** X12.  For a paper stored with the [pdf_url] the normaliser gave its
    entry, the page links to the template instance of the paper's id,
    the URL the fetcher downloads from, never to the fallback text. *)
Theorem pdf_link_of_normalised (iso8601 : string → bool)
    (get_paper_by_id : pyval → outcome pyval) (e : pyval) (rec : Paper) (paper : list (string * pyval))
    (key title : pyval) :
  parse_paper_data iso8601 e = Ret rec →
  get_paper_by_id key = Ret (PDict paper) →
  dict_get paper "pdf_url" = Some (PStr (pdf_url rec)) →
  get_pdf_download_link get_paper_by_id key title =
  Ret (pdf_anchor (document_url (py_str (paper_id rec))), []).
Proof.
  intros Hrec Hdb Hurl.
  apply parse_paper_data_inv in Hrec as (_ & _ & _ & _ & _ & Hdoc & _).
  rewrite Hdoc in Hurl.
  unfold get_pdf_download_link, pdf_link_body, mbind, outcome_bind.
  rewrite Hdb. destruct paper as [|kv paper]; [done|].
  cbn [py_truthy negb py_get subscript]. rewrite Hurl.
  cbn [default from_option id]. by rewrite document_url_truthy.
Qed.

Lemma join_names_showable (l : list pyval) :
  (∃ s, join_names l = Ret s) ↔ Forall showable_author l.
Proof.
  unfold join_names, mbind, outcome_bind.
  induction l as [|a l IH].
  { split; [constructor|]. intros _. simpl. eauto. }
  simpl. unfold mbind, outcome_bind, author_name.
  destruct a as [|b|z|s0|l0|d];
    try (split; [by intros [s Hs]|
                 intros Hall; apply Forall_cons in Hall as [(d & [=] & _) _]]).
  destruct (author_names l) as [names|] eqn:Hnames.
  - destruct (dict_get d "name") as [name|] eqn:Hname; cbn [default str_items].
    + destruct name as [|b|z|s|l0|d0];
        try (split; [by intros [s' Hs]|
                     intros Hall; apply Forall_cons in Hall
                       as [(d' & [= <-] & [?|[s' ?]]) _]; congruence]).
      unfold mbind, outcome_bind.
      destruct (str_items names) as [strs|].
      * split; [|eauto]. intros _. constructor; [|apply IH; eauto].
        exists d. split; [done|]. right. eauto.
      * split; [by intros [s' Hs]|].
        intros Hall. apply Forall_cons in Hall as [_ Hall].
        by apply IH in Hall as [s' Hs'].
    + unfold mbind, outcome_bind.
      destruct (str_items names) as [strs|].
      * split; [|eauto]. intros _. constructor; [|apply IH; eauto].
        exists d. split; [done|]. by left.
      * split; [by intros [s' Hs]|].
        intros Hall. apply Forall_cons in Hall as [_ Hall].
        by apply IH in Hall as [s' Hs'].
  - split; [by intros [s' Hs]|].
    intros Hall. apply Forall_cons in Hall as [_ Hall].
    by apply IH in Hall as [s' Hs'].
Qed.

(** X13.  The authors line is made from the first three authors alone:
    it is the line of those three, followed by [ et al.] when there are
    more, so an author after the third is never read, well formed or
    not. *)
Theorem authors_text_first_three (authors_list : list pyval) :
  authors_text authors_list =
  (s ← authors_text (take 3 authors_list);
   Ret (s +:+ (if decide (3 < List.length authors_list)%nat
               then " et al." else ""))).
Proof.
  unfold authors_text at 2.
  destruct (decide (3 < List.length (take 3 authors_list))%nat) as [Hlt|_].
  { rewrite length_take in Hlt. lia. }
  unfold authors_text.
  destruct (decide (3 < List.length authors_list)%nat) as [Hlt|Hge]; [done|].
  rewrite take_ge by lia. unfold mbind, outcome_bind.
  destruct (join_names authors_list); [|done].
  by rewrite string_app_empty_r.
Qed.

(** X14.  The authors line is produced, without an exception, exactly
    when each of the first three authors is a dict whose name is absent
    or a str; a missing name is shown as the empty string. *)
Theorem authors_text_showable (authors_list : list pyval) :
  (∃ s, authors_text authors_list = Ret s) ↔
  Forall showable_author (take 3 authors_list).
Proof.
  rewrite <-join_names_showable. unfold authors_text.
  destruct (decide (3 < List.length authors_list)%nat) as [Hlt|Hge].
  - unfold mbind, outcome_bind.
    destruct (join_names (take 3 authors_list)) as [s|]; [|by split; intros []].
    split; eauto.
  - by rewrite take_ge by lia.
Qed.

(** ** Ids that are not strings, and repeated downloads *)

Lemma download_paper_not_str_run w e st v :
  entry_id e = Ret v → (∀ x, v ≠ PStr x) →
  download_paper w e st =
  (Ret None, {| files := files st; requests := requests st;
                stdout := stdout st ++ [DownloadError v AttributeError] |}).
Proof.
  intros H Hv. unfold download_paper. rewrite H.
  unfold try_except, download_body, mbind, M_bind, lift.
  rewrite str_format_pdf.
  destruct v as [| | |x| |]; try done. by destruct (Hv x).
Qed.

(** X15.  An entry whose id is not a str is never requested: the
    [replace] of line 32 fails, the handler prints the error for that id
    and [download_paper] returns [None] with every file as it was. *)
Theorem download_paper_id_not_str (w : World) (e : pyval) (st : state)
    (v : pyval) :
  entry_id e = Ret v → (∀ x, v ≠ PStr x) →
  download_paper w e st =
  (Ret None, {| files := files st; requests := requests st;
                stdout := stdout st ++ [DownloadError v AttributeError] |}).
Proof. apply download_paper_not_str_run. Qed.



End Fetcher.

(** * The sample run

    The statements above, applied to [sample_world]. *)

Lemma download_paper_outcome_witness :
  fst (download_paper no_repr sample_world (entry_of "2503.00001") initial_state)
    = Ret (Some "temp_papers/2025-03-07_2503.00001.pdf") ∧
  fst (download_paper no_repr sample_world (entry_of "2503.00002") initial_state)
    = Ret None ∧
  fst (download_paper no_repr sample_world (entry_of "2503.00003") initial_state)
    = Ret None ∧
  fst (download_paper no_repr sample_world (entry_of "2503.00004") initial_state)
    = Ret None.
Proof.
  split_and!.
  - apply (proj1 (download_paper_outcome no_repr sample_world
                    (entry_of "2503.00001") initial_state)).
    exists "2503.00001". split_and!; [reflexivity|reflexivity|].
    apply (Download_ok sample_world "2503.00001" (response_of 200) pdf_bytes);
      reflexivity.
  - apply (proj1 (proj2 (download_paper_outcome no_repr sample_world
                           (entry_of "2503.00002") initial_state))
             "2503.00002"); [reflexivity|].
    apply (Bad_status sample_world "2503.00002" (response_of 404));
      [reflexivity|discriminate].
  - apply (proj1 (proj2 (download_paper_outcome no_repr sample_world
                           (entry_of "2503.00003") initial_state))
             "2503.00003"); [reflexivity|].
    apply (No_response sample_world "2503.00003" ClientError); reflexivity.
  - apply (proj1 (proj2 (download_paper_outcome no_repr sample_world
                           (entry_of "2503.00004") initial_state))
             "2503.00004"); [reflexivity|].
    apply (Write_error sample_world "2503.00004" (response_of 200) pdf_bytes);
      reflexivity.
Defined.

Lemma download_paper_scratch_file_witness :
  fst (download_paper no_repr sample_world (entry_of "2503/00001") initial_state)
    = Ret (Some "temp_papers/2025-03-07_2503_00001.pdf") ∧
  ∃ filename,
    "temp_papers/2025-03-07_2503_00001.pdf" = TEMP_DIR +:+ "/" +:+ filename ∧
    occurs "/" filename = false.
Proof.
  assert (H : fst (download_paper no_repr sample_world (entry_of "2503/00001")
                     initial_state)
              = Ret (Some "temp_papers/2025-03-07_2503_00001.pdf"))
    by reflexivity.
  split; [exact H|].
  destruct (download_paper_scratch_file no_repr sample_world
              (entry_of "2503/00001") initial_state _ H)
    as (x & clean_id & filename & content & _ & _ & _ & _ & _ & Hocc & Hp & _).
  exists filename. split; [exact Hp|exact Hocc].
Defined.

Lemma fetch_papers_outcome_witness :
  fst (fetch_papers sample_world initial_state)
    = Ret (PList [entry_of "2503.00001"; entry_of "2503.00002"]) ∧
  fst (fetch_papers outage_world initial_state) = Raise (ApiRequestFailed 503).
Proof.
  split.
  - apply (proj1 (proj2 (fetch_papers_outcome sample_world initial_state))
             {| resp_status := 200; resp_read := Ret [];
                resp_json := Ret (PList [entry_of "2503.00001";
                                         entry_of "2503.00002"]) |});
      reflexivity.
  - apply (proj2 (proj2 (fetch_papers_outcome outage_world initial_state))
             (response_of 503)); [reflexivity|discriminate].
Defined.

Lemma parse_paper_data_pure_witness :
  parse_paper_data no_repr sample_iso8601 (entry_of "2503.00001") =
  parse_paper_data no_repr sample_iso8601
    (PDict [("paper",
             PDict [("publishedAt", PStr "2025-03-06T00:00:00.000Z");
                    ("summary", PStr "An abstract.");
                    ("authors", PList [PDict [("name", PStr "A. Author")]]);
                    ("title", PStr "A paper");
                    ("id", PStr "2503.00001");
                    ("upvotes", PInt 7)])]).
Proof.
  apply (parse_paper_data_pure no_repr sample_iso8601).
  intros k Hk. unfold required_fields in Hk.
  repeat (apply elem_of_cons in Hk as [->|Hk]; [reflexivity|]).
  by apply elem_of_nil in Hk.
Defined.



Lemma pdf_url_single_template_witness :
  requests (snd (download_paper no_repr sample_world (entry_of "2503.00001")
                   initial_state))
  = ["https://arxiv.org/pdf/2503.00001.pdf"].
Proof.
  destruct (pdf_url_single_template no_repr sample_iso8601 sample_world
              (entry_of "2503.00001") initial_state
              {| paper_id := PStr "2503.00001"; title := PStr "A paper";
                 authors := PList [PDict [("name", PStr "A. Author")]];
                 summary := PStr "An abstract.";
                 published_at := PStr "2025-03-06T00:00:00.000Z";
                 pdf_url := "https://arxiv.org/pdf/2503.00001.pdf";
                 explanation := None |} eq_refl)
    as (id & Hid & _ & Hreq & _).
  injection Hid as <-. exact (Hreq "2503.00001" eq_refl).
Defined.

Lemma download_papers_all_succeed_witness :
  ∃ m, fst (download_papers no_repr sample_world
              [entry_of "2503.00001"; entry_of "2503.00005"] initial_state)
       = Ret m ∧
       size m = 2.
Proof.
  destruct (download_papers_all_succeed no_repr sample_world
              [entry_of "2503.00001"; entry_of "2503.00005"] initial_state)
    as (m & Hm & _ & _ & _ & Hsize).
  - repeat constructor; eexists; reflexivity.
  - exists m. split; [exact Hm|]. apply Hsize.
    repeat constructor; rewrite ?elem_of_cons, ?elem_of_nil; intuition discriminate.
Defined.

Lemma download_papers_keys_witness :
  ∃ m : gmap hkey string,
    collect_paths
      (zip [entry_of "2503.00001"; entry_of "2503.00002"]
           [Some "temp_papers/2025-03-07_2503.00001.pdf"; None]) ∅ = Ret m ∧
    m !! KStr "2503.00001" = Some "temp_papers/2025-03-07_2503.00001.pdf" ∧
    m !! KStr "2503.00002" = None.
Proof.
  destruct (download_papers_keys no_repr sample_world
              [entry_of "2503.00001"; entry_of "2503.00002"] initial_state
              [Some "temp_papers/2025-03-07_2503.00001.pdf"; None])
    as (m & Hm & _ & _ & Hstored & Hnone).
  - repeat constructor; reflexivity.
  - exists m. split_and!; [exact Hm| |].
    + destruct (Hstored 0 (entry_of "2503.00001") _ eq_refl eq_refl)
        as (x & Hid & Hx).
      injection Hid as <-. exact Hx.
    + exact (Hnone 1 (entry_of "2503.00002") (KStr "2503.00002")
               eq_refl eq_refl eq_refl).
Defined.

(** C1, as stated, fails: two entries for one paper give one outcome
    although both downloads succeed, and a batch with a failed download
    gives no outcomes at all. *)
Lemma download_papers_fewer_outcomes :
  ¬ returns_one_outcome_per_entry no_repr sample_world
      [entry_of "2503.00001"; entry_of "2503.00001"] initial_state ∧
  ¬ returns_one_outcome_per_entry no_repr sample_world
      [entry_of "2503.00001"; entry_of "2503.00002"] initial_state.
Proof.
  split; intros (m & Hm & Hsize).
  - assert (Hrun : fst (download_papers no_repr sample_world
                          [entry_of "2503.00001"; entry_of "2503.00001"]
                          initial_state)
                   = Ret {[KStr "2503.00001" :=
                             "temp_papers/2025-03-07_2503.00001.pdf"]})
      by reflexivity.
    rewrite Hrun in Hm. clear Hrun. injection Hm as <-.
    rewrite map_size_singleton in Hsize. discriminate Hsize.
  - assert (Hrun : fst (download_papers no_repr sample_world
                          [entry_of "2503.00001"; entry_of "2503.00002"]
                          initial_state)
                   = Raise TypeError)
      by reflexivity.
    rewrite Hrun in Hm. clear Hrun. discriminate Hm.
Qed.

(** C2.  One entry is downloaded, the other is not found, and the whole
    batch raises at the count of line 62: the successful entry's outcome
    is not returned. *)
Theorem download_papers_failure_aborts_batch :
  fst (download_paper no_repr sample_world (entry_of "2503.00001") initial_state)
    = Ret (Some "temp_papers/2025-03-07_2503.00001.pdf") ∧
  fst (download_paper no_repr sample_world (entry_of "2503.00002") initial_state)
    = Ret None ∧
  fst (download_papers no_repr sample_world
         [entry_of "2503.00001"; entry_of "2503.00002"] initial_state)
    = Raise TypeError.
Proof. split_and!; reflexivity. Qed.

(** C9.  For a batch of one entry whose document is not found, the run
    prints the failure of that entry and then raises: no summary line
    with 0 of 1 is printed. *)
Theorem download_papers_no_summary :
  download_papers no_repr sample_world [entry_of "2503.00002"] initial_state
  = (Raise TypeError,
     {| files := ∅;
        requests := ["https://arxiv.org/pdf/2503.00002.pdf"];
        stdout := [DownloadFailed (PStr "2503.00002") 404] |}).
Proof. reflexivity. Qed.

(** ** The further properties on the sample run *)

Lemma download_paper_raises_iff_witness :
  download_paper no_repr sample_world entry_without_id initial_state
  = (Raise (UnboundLocalError "paper_id"), initial_state).
Proof.
  destruct (download_paper_raises_iff no_repr sample_world entry_without_id
              initial_state) as [Hraise Hstate].
  pose proof (proj2 (Hraise (UnboundLocalError "paper_id"))
                (conj (ex_intro _ (KeyError "id") eq_refl) eq_refl)) as H1.
  pose proof (Hstate (KeyError "id") eq_refl) as H2.
  rewrite (surjective_pairing (download_paper _ _ _ _)), H1, H2.
  reflexivity.
Defined.

Lemma download_papers_unbound_witness :
  fst (download_papers no_repr sample_world
         [entry_of "2503.00001"; entry_without_id] initial_state)
  = Raise (UnboundLocalError "paper_id").
Proof.
  apply download_papers_unbound.
  exists entry_without_id, (KeyError "id"). split; [|reflexivity].
  apply elem_of_cons. right. apply elem_of_cons. by left.
Defined.

Lemma download_papers_returns_iff_witness :
  fst (download_papers no_repr sample_world
         [entry_of "2503.00001"; entry_of "2503.00003"] initial_state)
  = Raise TypeError.
Proof.
  assert (Hbound : Forall (λ e, ∃ v, entry_id e = Ret v)
                      [entry_of "2503.00001"; entry_of "2503.00003"]).
  { repeat constructor; eexists; reflexivity. }
  apply (proj2 (download_papers_returns_iff no_repr sample_world
                  [entry_of "2503.00001"; entry_of "2503.00003"]
                  initial_state Hbound)).
  exists (entry_of "2503.00003"). split; [|reflexivity].
  apply elem_of_cons. right. apply elem_of_cons. by left.
Defined.

Lemma download_papers_confined_witness :
  files (snd (download_papers no_repr sample_world
                [entry_of "../../etc/passwd"] initial_state))
    !! "temp_papers/../../etc/passwd" = None.
Proof.
  rewrite (download_papers_confined no_repr sample_world
             [entry_of "../../etc/passwd"] initial_state
             "temp_papers/../../etc/passwd"); [reflexivity|].
  intros (filename & Hpath & Hocc).
  apply (string_app_inv_head "temp_papers/") in Hpath. subst filename.
  discriminate Hocc.
Defined.

Lemma download_paper_failed_get_witness :
  download_paper no_repr sample_world (entry_of "2503.00002") initial_state
  = (Ret None,
     {| files := ∅;
        requests := ["https://arxiv.org/pdf/2503.00002.pdf"];
        stdout := [DownloadFailed (PStr "2503.00002") 404] |}).
Proof.
  apply (proj1 (download_paper_failed_get no_repr sample_world
                  (entry_of "2503.00002") initial_state "2503.00002"
                  eq_refl) (response_of 404)); [reflexivity|discriminate].
Defined.

Lemma download_papers_requests_witness :
  requests (snd (download_papers no_repr sample_world
                   [entry_of "2503.00001"; entry_of "2503.00002"]
                   initial_state))
  ≡ₚ ["https://arxiv.org/pdf/2503.00001.pdf";
      "https://arxiv.org/pdf/2503.00002.pdf"].
Proof.
  apply (download_papers_requests no_repr sample_world
           [entry_of "2503.00001"; entry_of "2503.00002"] initial_state).
  repeat constructor; eexists; reflexivity.
Defined.

Lemma download_papers_summary_line_witness :
  Summary 2 2 ∈ stdout (snd (download_papers no_repr sample_world
                               [entry_of "2503.00001"; entry_of "2503.00005"]
                               initial_state)) ∧
  ∃ m, fst (download_papers no_repr sample_world
              [entry_of "2503.00001"; entry_of "2503.00005"] initial_state)
       = Ret m.
Proof.
  assert (Hin : Summary 2 2 ∈
            stdout (snd (download_papers no_repr sample_world
                           [entry_of "2503.00001"; entry_of "2503.00005"]
                           initial_state))).
  { apply elem_of_cons. right. apply elem_of_cons. right.
    apply elem_of_cons. by left. }
  split; [exact Hin|].
  destruct (download_papers_summary_line no_repr sample_world _ initial_state
              2 2 Hin) as [Hold|(_ & _ & Hret)]; [|exact Hret].
  by apply elem_of_nil in Hold.
Defined.

Lemma document_url_injective_witness :
  "2503.00001" = "2503.00001".
Proof.
  apply (document_url_injective no_repr "2503.00001" "2503.00001").
  reflexivity.
Defined.

Lemma download_paper_same_file_witness :
  "2503/00001" ≠ "2503_00001" ∧
  scratch_path sample_world (replace_char "/" "_" "2503/00001") =
  scratch_path sample_world (replace_char "/" "_" "2503_00001").
Proof.
  split; [discriminate|].
  apply (proj2 (download_paper_same_file no_repr sample_world
                  (entry_of "2503/00001") (entry_of "2503_00001")
                  initial_state initial_state "2503/00001" "2503_00001" _ _
                  eq_refl eq_refl eq_refl eq_refl)).
  reflexivity.
Defined.

Lemma pdf_link_of_normalised_witness :
  get_pdf_download_link no_repr sample_store (PStr "2503.00001")
    (PStr "A paper")
  = Ret (pdf_anchor "https://arxiv.org/pdf/2503.00001.pdf", []).
Proof.
  apply (pdf_link_of_normalised no_repr sample_iso8601 sample_store (entry_of "2503.00001")
           {| paper_id := PStr "2503.00001"; title := PStr "A paper";
              authors := PList [PDict [("name", PStr "A. Author")]];
              summary := PStr "An abstract.";
              published_at := PStr "2025-03-06T00:00:00.000Z";
              pdf_url := "https://arxiv.org/pdf/2503.00001.pdf";
              explanation := None |}
           [("paper_id", PStr "2503.00001"); ("title", PStr "A paper");
            ("pdf_url", PStr "https://arxiv.org/pdf/2503.00001.pdf")]);
    reflexivity.
Defined.

Lemma authors_text_showable_witness :
  (∃ s, authors_text [PDict [("name", PStr "A")]; PDict []; PDict [];
                      PDict [("name", PNone)]; PStr "not an author"]
        = Ret s) ∧
  ¬ ∃ s, authors_text [PDict [("name", PStr "A")]; PDict [("name", PNone)]]
         = Ret s.
Proof.
  split.
  - apply authors_text_showable. repeat constructor.
    + exists [("name", PStr "A")]. split; [done|]. right. by exists "A".
    + exists []. split; [done|]. by left.
    + exists []. split; [done|]. by left.
  - intros Hs. apply authors_text_showable in Hs.
    apply Forall_cons in Hs as [_ Hs]. apply Forall_cons in Hs as [Hs _].
    destruct Hs as (d & [= <-] & [Hd|[s Hd]]); discriminate Hd.
Defined.

Lemma download_paper_id_not_str_witness :
  download_paper no_repr sample_world
    (PDict [("paper", PDict [("id", PInt 2503)])]) initial_state
  = (Ret None,
     {| files := ∅; requests := [];
        stdout := [DownloadError (PInt 2503) AttributeError] |}).
Proof.
  apply (download_paper_id_not_str no_repr sample_world _ initial_state
           (PInt 2503)); [reflexivity|discriminate].
Defined.
